(** * Order lifecycle of the farm storefront API

    A shallow embedding of the service layer of [api/orders/service.py],
    [api/products/service.py], [api/payments/service.py] and
    [api/shipments/service.py], and of the order routes of
    [api/orders/routes.py], over the tables of [packages/db/models.py].

    Conventions of the embedding.
    - [Decimal] values are rationals ([Q]) and their arithmetic is exact;
      Python compares decimals by value, so equalities between amounts are
      stated with [==] ([Qeq]).  Rounding to the scale of a column is the
      store's business and is not modelled.
    - A [UUID] is its 128-bit integer.
    - The [AsyncSession] is a pair of stores: the committed rows and the rows
      as the running transaction sees them.  ORM objects are rows of the
      working store, so two [db.get] calls on one key alias one row.
    - Service coroutines are computations of the monad [M]: they thread the
      session and either return a value or raise.
    - Columns no modelled service function reads or writes (descriptions,
      image URLs, server-side timestamps of creation and update) are left
      out of the records. *)

From Stdlib Require Import Ascii String QArith Lqa.
From stdpp Require Import gmap strings list fin_maps.

Local Open Scope Q_scope.

(** ** Enumerations ([packages/db/enums.py]) *)

Inductive OrderStatus :=
| DRAFT | PENDING_PAYMENT | PAID | CANCELLED | FULFILLED.

Inductive PaymentStatus :=
| NOT_REQUIRED | PENDING | AUTHORIZED | CAPTURED | FAILED | REFUNDED.

Inductive ShipmentStatus :=
| SHIPMENT_PENDING | PACKED | SHIPPED | DELIVERED | SHIPMENT_CANCELLED.

#[global] Instance OrderStatus_eq_dec : EqDecision OrderStatus.
Proof. solve_decision. Defined.
#[global] Instance PaymentStatus_eq_dec : EqDecision PaymentStatus.
Proof. solve_decision. Defined.
#[global] Instance ShipmentStatus_eq_dec : EqDecision ShipmentStatus.
Proof. solve_decision. Defined.

(** ** Primitive types *)

Abbreviation UUID := N (only parsing).
Abbreviation Decimal := Q (only parsing).
(** [datetime]: seconds since the epoch. *)
Abbreviation datetime := Z (only parsing).

(** Truth value of a [Decimal] in a Python condition: zero is false. *)
Definition decimal_truthy (d : Decimal) : bool := negb (Qeq_bool d 0).

(** [a < b] on decimals, as a condition. *)
Definition decimal_lt (a b : Decimal) : bool :=
  if Qlt_le_dec a b then true else false.

(** Truth value of an [Optional[Decimal]]: [None] and zero are false. *)
Definition opt_decimal_truthy (d : option Decimal) : bool :=
  match d with
  | None => false
  | Some x => decimal_truthy x
  end.

(** Truth value of an [Optional[str]]: [None] and the empty string are
    false. *)
Definition opt_str_truthy (s : option string) : bool :=
  match s with
  | None => false
  | Some EmptyString => false
  | Some (String _ _) => true
  end.

(** Truth value of an [Optional[datetime]]: only [None] is false. *)
Definition opt_datetime_truthy (t : option datetime) : bool :=
  match t with
  | None => false
  | Some _ => true
  end.

(** [str(uuid)]: 32 lower-case hexadecimal digits grouped 8-4-4-4-12. *)
Definition hex_digit (n : N) : ascii :=
  match n with
  | 0%N => "0" | 1%N => "1" | 2%N => "2" | 3%N => "3"
  | 4%N => "4" | 5%N => "5" | 6%N => "6" | 7%N => "7"
  | 8%N => "8" | 9%N => "9" | 10%N => "a" | 11%N => "b"
  | 12%N => "c" | 13%N => "d" | 14%N => "e" | _ => "f"
  end%char.

Fixpoint hex_fixed (width : nat) (n : N) : string :=
  match width with
  | O => EmptyString
  | S w =>
      hex_fixed w (n / 16)%N +:+ String (hex_digit (n mod 16)%N) EmptyString
  end.

Definition uuid_str (u : UUID) : string :=
  let h := hex_fixed 32 u in
  substring 0 8 h +:+ "-" +:+ substring 8 4 h +:+ "-" +:+ substring 12 4 h
    +:+ "-" +:+ substring 16 4 h +:+ "-" +:+ substring 20 12 h.

(** ** Tables ([packages/db/models.py]) *)

Module ProductModel.
Record t := mk {
  farmer_id : UUID;
  name : string;
  price_per_unit : Decimal;
  currency : string;
  stock_quantity : Decimal;
  min_order_quantity : Decimal;
  max_order_quantity : option Decimal;
  is_active : bool;
}.

Definition set_stock_quantity (q : Decimal) (p : t) : t :=
  mk (farmer_id p) (name p) (price_per_unit p) (currency p) q
     (min_order_quantity p) (max_order_quantity p) (is_active p).
End ProductModel.

Module OrderItemModel.
Record t := mk {
  order_id : UUID;
  product_id : UUID;
  quantity : Decimal;
  unit_price : Decimal;
  line_subtotal : Decimal;
  line_discount : Decimal;
  line_total : Decimal;
}.
End OrderItemModel.

(** Shipping address snapshot and notes shared by the request and the row. *)
Record OrderBase := {
  customer_id : UUID;
  farmer_id : UUID;
  shipping_name : option string;
  shipping_phone : option string;
  shipping_address1 : option string;
  shipping_address2 : option string;
  shipping_city : option string;
  shipping_postal_code : option string;
  shipping_country : string;
  customer_notes : option string;
}.

Module OrderModel.
Record t := mk {
  base : OrderBase;
  status : OrderStatus;
  payment_status : PaymentStatus;
  payment_provider : option string;
  payment_reference : option string;
  subtotal_amount : Decimal;
  shipping_amount : Decimal;
  discount_amount : Decimal;
  total_amount : Decimal;
  currency : string;
  internal_notes : option string;
  (** the [order_items] relationship, in insertion order *)
  order_items : list OrderItemModel.t;
}.

Definition set_status (s : OrderStatus) (o : t) : t :=
  mk (base o) s (payment_status o) (payment_provider o)
     (payment_reference o) (subtotal_amount o) (shipping_amount o)
     (discount_amount o) (total_amount o) (currency o) (internal_notes o)
     (order_items o).

Definition set_payment_status (ps : PaymentStatus) (o : t) : t :=
  mk (base o) (status o) ps (payment_provider o)
     (payment_reference o) (subtotal_amount o) (shipping_amount o)
     (discount_amount o) (total_amount o) (currency o) (internal_notes o)
     (order_items o).

Definition set_payment_provider (pp : option string) (o : t) : t :=
  mk (base o) (status o) (payment_status o) pp
     (payment_reference o) (subtotal_amount o) (shipping_amount o)
     (discount_amount o) (total_amount o) (currency o) (internal_notes o)
     (order_items o).

Definition set_payment_reference (pr : option string) (o : t) : t :=
  mk (base o) (status o) (payment_status o) (payment_provider o)
     pr (subtotal_amount o) (shipping_amount o)
     (discount_amount o) (total_amount o) (currency o) (internal_notes o)
     (order_items o).

Definition set_subtotal_amount (a : Decimal) (o : t) : t :=
  mk (base o) (status o) (payment_status o) (payment_provider o)
     (payment_reference o) a (shipping_amount o)
     (discount_amount o) (total_amount o) (currency o) (internal_notes o)
     (order_items o).

Definition set_total_amount (a : Decimal) (o : t) : t :=
  mk (base o) (status o) (payment_status o) (payment_provider o)
     (payment_reference o) (subtotal_amount o) (shipping_amount o)
     (discount_amount o) a (currency o) (internal_notes o)
     (order_items o).

Definition add_order_item (i : OrderItemModel.t) (o : t) : t :=
  mk (base o) (status o) (payment_status o) (payment_provider o)
     (payment_reference o) (subtotal_amount o) (shipping_amount o)
     (discount_amount o) (total_amount o) (currency o) (internal_notes o)
     (order_items o ++ [i]).
End OrderModel.

Module ShipmentModel.
Record t := mk {
  order_id : UUID;
  status : ShipmentStatus;
  carrier_name : option string;
  tracking_number : option string;
  shipped_at : option datetime;
  delivered_at : option datetime;
}.
End ShipmentModel.

(** The rows of the four tables the order lifecycle touches. *)
Record Db := {
  product : gmap N ProductModel.t;
  orders : gmap N OrderModel.t;
  shipment : gmap N ShipmentModel.t;
}.

Definition with_product (f : gmap N ProductModel.t → gmap N ProductModel.t)
    (d : Db) : Db :=
  {| product := f (product d); orders := orders d; shipment := shipment d |}.

Definition with_orders (f : gmap N OrderModel.t → gmap N OrderModel.t)
    (d : Db) : Db :=
  {| product := product d; orders := f (orders d); shipment := shipment d |}.

Definition with_shipment (f : gmap N ShipmentModel.t → gmap N ShipmentModel.t)
    (d : Db) : Db :=
  {| product := product d; orders := orders d; shipment := f (shipment d) |}.

(** ** The session and the monad of service coroutines *)

Record AsyncSession := {
  committed : Db;
  working : Db;
}.

(** A session as a request receives it: nothing pending. *)
Definition new_session (d : Db) : AsyncSession :=
  {| committed := d; working := d |}.

(** Payload of the [ValueError]s the services raise; the comment gives the
    message of the source. *)
Inductive ValueErrorKind :=
| ProductNotFound (product_id : UUID)
    (* f"Product {item.product_id} not found" *)
| InsufficientStockFor (product_name : string)
    (* f"Insufficient stock for product {product.name}" *)
| CannotCancel (status : OrderStatus)
    (* f"Cannot cancel order with status {order.status}" *)
| DeleteNotDraft
    (* "Can only delete orders in DRAFT status" *)
| InsufficientStock.
    (* "Insufficient stock" *)

Inductive Exception :=
| ValueError (kind : ValueErrorKind)
| IntegrityError.  (* raised by the store: duplicate primary key *)

Inductive Result (A : Type) :=
| Ok (a : A)
| Raise (e : Exception).
Arguments Ok {A} a.
Arguments Raise {A} e.

Definition M (A : Type) : Type := AsyncSession → Result A * AsyncSession.

#[global] Instance M_ret : MRet M := λ A a s, (Ok a, s).
#[global] Instance M_bind : MBind M := λ A B f m s,
  match m s with
  | (Ok a, s') => f a s'
  | (Raise e, s') => (Raise e, s')
  end.

Definition raise {A} (e : Exception) : M A := λ s, (Raise e, s).

(** [try: body except Exception as e: handler e] *)
Definition try_except {A} (body : M A) (handler : Exception → M A) : M A :=
  λ s, match body s with
       | (Ok a, s') => (Ok a, s')
       | (Raise e, s') => handler e s'
       end.

(** [for x in xs: body x] *)
Fixpoint for_each {A} (xs : list A) (body : A → M ()) : M () :=
  match xs with
  | [] => mret ()
  | x :: xs' => body x ;; for_each xs' body
  end.

(** [for x in xs: acc = body acc x], for a loop that updates one local. *)
Fixpoint for_each_acc {A B} (xs : list A) (acc : B) (body : B → A → M B)
    : M B :=
  match xs with
  | [] => mret acc
  | x :: xs' => acc' ← body acc x; for_each_acc xs' acc' body
  end.

(** *** Session primitives *)

Definition db_commit : M () := λ s,
  (Ok (), {| committed := working s; working := working s |}).

Definition db_rollback : M () := λ s,
  (Ok (), {| committed := committed s; working := committed s |}).

(** [await db.get(ProductModel, id)] *)
Definition db_get_product (id : UUID) : M (option ProductModel.t) := λ s,
  (Ok (product (working s) !! id), s).

(** Attribute assignment on a loaded product: [product.stock_quantity = q]. *)
Definition set_product_stock (id : UUID) (q : Decimal) : M () := λ s,
  (Ok (), {| committed := committed s;
             working := with_product
                          (alter (ProductModel.set_stock_quantity q) id)
                          (working s) |}).

(** [select(OrderModel).where(OrderModel.id == id)] then
    [scalar_one_or_none()] *)
Definition db_select_order (id : UUID) : M (option OrderModel.t) := λ s,
  (Ok (orders (working s) !! id), s).

(** Writes to the row of an order held by the session, by attribute
    assignment or by an [update(OrderModel).where(id == ...)] statement. *)
Definition db_update_order (id : UUID) (f : OrderModel.t → OrderModel.t)
    : M () := λ s,
  (Ok (), {| committed := committed s;
             working := with_orders (alter f id) (working s) |}).

(** [db.add(db_order); await db.flush()]: the row is inserted under the key
    the server default [gen_random_uuid()] produced. *)
Definition db_add_order (id : UUID) (o : OrderModel.t) : M () := λ s,
  match orders (working s) !! id with
  | Some _ => (Raise IntegrityError, s)
  | None => (Ok (), {| committed := committed s;
                       working := with_orders (insert id o) (working s) |})
  end.

(** [delete(OrderModel).where(OrderModel.id == id)]; the shipment of the
    order goes with it ([ondelete="CASCADE"]). *)
Definition db_delete_order (id : UUID) : M () := λ s,
  (Ok (), {| committed := committed s;
             working :=
               with_shipment
                 (filter (λ kv, ShipmentModel.order_id kv.2 ≠ id))
                 (with_orders (delete id) (working s)) |}).

(** ** Request models ([api/orders/models.py]) *)

Module OrderItemCreate.
Record t := mk {
  product_id : UUID;
  quantity : Decimal;       (* Field(..., gt=0) *)
  unit_price : Decimal;     (* Field(..., ge=0) *)
  line_discount : Decimal;  (* Field(default=0, ge=0) *)
}.

(** What the field constraints of [OrderItemBase] accept. *)
Definition valid (i : t) : Prop :=
  0 < quantity i ∧ 0 <= unit_price i ∧ 0 <= line_discount i.
End OrderItemCreate.

Module OrderCreate.
Record t := mk {
  base : OrderBase;
  items : list OrderItemCreate.t;
  (** the two amounts as the new row holds them once flushed (a request
      that leaves them out gets the default 0) *)
  shipping_amount : Decimal;  (* Field(default=0, ge=0) *)
  discount_amount : Decimal;  (* Field(default=0, ge=0) *)
}.

Definition valid (r : t) : Prop :=
  Forall OrderItemCreate.valid (items r)
  ∧ 0 <= shipping_amount r ∧ 0 <= discount_amount r.
End OrderCreate.

(** ** [OrderService] ([api/orders/service.py]) *)

Module OrderService.

(** The row built from the request without its items (line 95): the
    columns the request does not name take their defaults. *)
Definition new_order_row (order_data : OrderCreate.t) : OrderModel.t :=
  {| OrderModel.base := OrderCreate.base order_data;
     OrderModel.status := DRAFT;
     OrderModel.payment_status := PENDING;
     OrderModel.payment_provider := None;
     OrderModel.payment_reference := None;
     OrderModel.subtotal_amount := 0;
     OrderModel.shipping_amount := OrderCreate.shipping_amount order_data;
     OrderModel.discount_amount := OrderCreate.discount_amount order_data;
     OrderModel.total_amount := 0;
     OrderModel.currency := "ILS";
     OrderModel.internal_notes := None;
     OrderModel.order_items := [] |}.

(** [get_order]: the order with its relationships loaded. *)
Definition get_order (order_id : UUID) : M (option OrderModel.t) :=
  db_select_order order_id.

(** Body of the loop of [create_order] (lines 101-128). *)
Definition create_order_item (db_order_id : UUID) (subtotal : Decimal)
    (item : OrderItemCreate.t) : M Decimal :=
  product ← db_get_product (OrderItemCreate.product_id item);
  match product with
  | None =>
      raise (ValueError (ProductNotFound (OrderItemCreate.product_id item)))
  | Some product =>
      if Qlt_le_dec (ProductModel.stock_quantity product)
                    (OrderItemCreate.quantity item)
      then raise (ValueError
                    (InsufficientStockFor (ProductModel.name product)))
      else
        let line_subtotal :=
          OrderItemCreate.quantity item * OrderItemCreate.unit_price item in
        let line_total :=
          line_subtotal - OrderItemCreate.line_discount item in
        let order_item :=
          {| OrderItemModel.order_id := db_order_id;
             OrderItemModel.product_id := OrderItemCreate.product_id item;
             OrderItemModel.quantity := OrderItemCreate.quantity item;
             OrderItemModel.unit_price := OrderItemCreate.unit_price item;
             OrderItemModel.line_subtotal := line_subtotal;
             OrderItemModel.line_discount :=
               OrderItemCreate.line_discount item;
             OrderItemModel.line_total := line_total |} in
        db_update_order db_order_id (OrderModel.add_order_item order_item) ;;
        let subtotal := subtotal + line_total in
        set_product_stock (OrderItemCreate.product_id item)
          (ProductModel.stock_quantity product
           - OrderItemCreate.quantity item) ;;
        mret subtotal
  end.

(** [create_order]; [new_id] is the key the store gives the new row. *)
Definition create_order (new_id : UUID) (order_data : OrderCreate.t)
    : M (option OrderModel.t) :=
  try_except
    (db_add_order new_id (new_order_row order_data) ;;
     subtotal ← for_each_acc (OrderCreate.items order_data) 0
                  (create_order_item new_id);
     db_update_order new_id (OrderModel.set_subtotal_amount subtotal) ;;
     db_update_order new_id
       (λ db_order,
          OrderModel.set_total_amount
            (subtotal + OrderModel.shipping_amount db_order
             - OrderModel.discount_amount db_order) db_order) ;;
     db_commit ;;
     get_order new_id)
    (λ e, db_rollback ;; raise e).

Definition cancel_order (order_id : UUID) : M (option OrderModel.t) :=
  order ← get_order order_id;
  match order with
  | None => mret None
  | Some order =>
      if bool_decide (OrderModel.status order ∈ [CANCELLED; FULFILLED])
      then raise (ValueError (CannotCancel (OrderModel.status order)))
      else
        try_except
          (for_each (OrderModel.order_items order)
             (λ order_item,
                product ← db_get_product
                            (OrderItemModel.product_id order_item);
                match product with
                | Some product =>
                    set_product_stock
                      (OrderItemModel.product_id order_item)
                      (ProductModel.stock_quantity product
                       + OrderItemModel.quantity order_item)
                | None => mret ()
                end) ;;
           db_update_order order_id (OrderModel.set_status CANCELLED) ;;
           db_commit ;;
           get_order order_id)
          (λ e, db_rollback ;; raise e)
  end.

Definition delete_order (order_id : UUID) : M bool :=
  order ← get_order order_id;
  match order with
  | None => mret false
  | Some order =>
      if bool_decide (OrderModel.status order ≠ DRAFT)
      then raise (ValueError DeleteNotDraft)
      else
        for_each (OrderModel.order_items order)
          (λ order_item,
             product ← db_get_product
                         (OrderItemModel.product_id order_item);
             match product with
             | Some product =>
                 set_product_stock (OrderItemModel.product_id order_item)
                   (ProductModel.stock_quantity product
                    + OrderItemModel.quantity order_item)
             | None => mret ()
             end) ;;
        db_delete_order order_id ;;
        db_commit ;;
        mret true
  end.

End OrderService.

(** ** [ProductService.update_stock] ([api/products/service.py]) *)

(** [update(ProductModel).where(ProductModel.id == id).values(...)] *)
Definition db_update_product (id : UUID)
    (f : ProductModel.t → ProductModel.t) : M () := λ s,
  (Ok (), {| committed := committed s;
             working := with_product (alter f id) (working s) |}).

Module ProductService.

Definition get_product (product_id : UUID) : M (option ProductModel.t) :=
  db_get_product product_id.

Definition update_stock (product_id : UUID) (quantity_change : Decimal)
    : M (option ProductModel.t) :=
  product ← get_product product_id;
  match product with
  | None => mret None
  | Some product =>
      let new_quantity :=
        ProductModel.stock_quantity product + quantity_change in
      if Qlt_le_dec new_quantity 0
      then raise (ValueError InsufficientStock)
      else
        db_update_product product_id
          (ProductModel.set_stock_quantity new_quantity) ;;
        db_commit ;;
        get_product product_id
  end.

End ProductService.

(** ** Payment providers ([api/payments/providers/base.py]) *)

(** A provider answers with a dictionary whose ["success"] entry tells
    which of the two shapes it has. *)
Inductive ProviderResult (A : Type) :=
| ProviderSuccess (a : A)
| ProviderFailure (error : string).
Arguments ProviderSuccess {A} a.
Arguments ProviderFailure {A} error.

Record CreatedPayment := {
  created_payment_id : string;
  created_approval_url : option string;
}.

Record Refund := {
  refund_id : string;
  refund_state : string;
}.

(** The methods of [BasePaymentProvider] the payment service calls for
    payment creation and refund.  The provider is outside the program: the
    development holds for every implementation. *)
Class BasePaymentProvider := {
  create_payment :
    ∀ (amount : Decimal) (currency description : string)
      (return_url cancel_url order_id : option string),
      ProviderResult CreatedPayment;
  refund_payment :
    ∀ (transaction_id : string) (amount : option Decimal),
      ProviderResult Refund;
  provider_name : string;
}.

(** ** [PaymentService] ([api/payments/service.py]) *)

(** The ["error"] entry of a failed answer; the comment gives the text. *)
Inductive PaymentError :=
| OrderNotFound
    (* "Order not found" *)
| CannotBePaid (status : OrderStatus)
    (* f"Order cannot be paid in {order.status} status" *)
| AlreadyPaid
    (* "Order is already paid" *)
| CreationFailed (error : string)
    (* f"PayPal payment creation failed: {...}" *)
| NotPaidWithPayPal
    (* "Order was not paid with PayPal" *)
| NotCaptured
    (* "Order payment is not captured" *)
| NoTransactionReference
    (* "No PayPal transaction reference found" *)
| RefundFailed (error : string)
    (* f"PayPal refund failed: {...}" *)
| InternalServerError.
    (* "Internal server error" *)

Inductive Answer (A : Type) :=
| Success (a : A)        (* {"success": True, ...} *)
| Failure (error : PaymentError).  (* {"success": False, "error": ...} *)
Arguments Success {A} a.
Arguments Failure {A} error.

Record PaymentCreated := {
  pc_order_id : string;
  pc_payment_id : string;
  pc_approval_url : option string;
  pc_amount : Decimal;  (* the amount the answer converts to a float *)
  pc_currency : string;
}.

Record PaymentRefunded := {
  pr_order_id : string;
  pr_refund_id : string;
  pr_refund_state : string;
  pr_refund_amount : Decimal;
  pr_currency : string;
}.

Module PaymentService.
Section WithProvider.
Context (paypal_provider : BasePaymentProvider).

Definition create_paypal_payment (order_id : UUID)
    (return_url cancel_url : option string)
    : M (Answer PaymentCreated) :=
  try_except
    (order ← db_select_order order_id;
     match order with
     | None => mret (Failure OrderNotFound)
     | Some order =>
         if bool_decide
              (OrderModel.status order ∉ [DRAFT; PENDING_PAYMENT])
         then mret (Failure (CannotBePaid (OrderModel.status order)))
         else if bool_decide (OrderModel.payment_status order = CAPTURED)
         then mret (Failure AlreadyPaid)
         else
           let description :=
             "Farm Order #" +:+ substring 0 8 (uuid_str order_id)
               +:+ " - From Field to You" in
           let payment_result :=
             create_payment (OrderModel.total_amount order)
               (OrderModel.currency order) description
               return_url cancel_url (Some (uuid_str order_id)) in
           match payment_result with
           | ProviderFailure error => mret (Failure (CreationFailed error))
           | ProviderSuccess payment =>
               db_update_order order_id
                 (λ o, OrderModel.set_status PENDING_PAYMENT
                         (OrderModel.set_payment_status PENDING
                            (OrderModel.set_payment_reference
                               (Some (created_payment_id payment))
                               (OrderModel.set_payment_provider
                                  (Some "PAYPAL") o)))) ;;
               db_commit ;;
               mret (Success
                       {| pc_order_id := uuid_str order_id;
                          pc_payment_id := created_payment_id payment;
                          pc_approval_url := created_approval_url payment;
                          pc_amount := OrderModel.total_amount order;
                          pc_currency := OrderModel.currency order |})
           end
     end)
    (λ e, db_rollback ;; mret (Failure InternalServerError)).

Definition refund_paypal_payment (order_id : UUID)
    (amount : option Decimal) : M (Answer PaymentRefunded) :=
  try_except
    (order ← db_select_order order_id;
     match order with
     | None => mret (Failure OrderNotFound)
     | Some order =>
         if bool_decide (OrderModel.payment_provider order ≠ Some "PAYPAL")
         then mret (Failure NotPaidWithPayPal)
         else if bool_decide (OrderModel.payment_status order ≠ CAPTURED)
         then mret (Failure NotCaptured)
         else if negb (opt_str_truthy (OrderModel.payment_reference order))
         then mret (Failure NoTransactionReference)
         else
           let refund_result :=
             refund_payment
               (default "" (OrderModel.payment_reference order)) amount in
           match refund_result with
           | ProviderFailure error => mret (Failure (RefundFailed error))
           | ProviderSuccess refund =>
               let new_payment_status :=
                 if opt_decimal_truthy amount
                    && decimal_lt (default 0 amount)
                                  (OrderModel.total_amount order)
                 then CAPTURED else REFUNDED in
               db_update_order order_id
                 (OrderModel.set_payment_status new_payment_status) ;;
               db_commit ;;
               mret (Success
                       {| pr_order_id := uuid_str order_id;
                          pr_refund_id := refund_id refund;
                          pr_refund_state := refund_state refund;
                          pr_refund_amount :=
                            (if opt_decimal_truthy amount
                             then default 0 amount
                             else OrderModel.total_amount order);
                          pr_currency := OrderModel.currency order |})
           end
     end)
    (λ e, db_rollback ;; mret (Failure InternalServerError)).

End WithProvider.
End PaymentService.

(** ** [ShipmentService.update_shipment_status]
       ([api/shipments/service.py]) *)

(** The [update_data] dictionary: [None] for a key that is absent. *)
Record ShipmentUpdateData := {
  ud_status : ShipmentStatus;
  ud_shipped_at : option datetime;
  ud_delivered_at : option datetime;
}.

(** The [update] statement whose values are [update_data], on one row. *)
Definition apply_update_data (u : ShipmentUpdateData) (sh : ShipmentModel.t)
    : ShipmentModel.t :=
  {| ShipmentModel.order_id := ShipmentModel.order_id sh;
     ShipmentModel.status := ud_status u;
     ShipmentModel.carrier_name := ShipmentModel.carrier_name sh;
     ShipmentModel.tracking_number := ShipmentModel.tracking_number sh;
     ShipmentModel.shipped_at :=
       match ud_shipped_at u with
       | Some t => Some t
       | None => ShipmentModel.shipped_at sh
       end;
     ShipmentModel.delivered_at :=
       match ud_delivered_at u with
       | Some t => Some t
       | None => ShipmentModel.delivered_at sh
       end |}.

Definition db_select_shipment (id : UUID) : M (option ShipmentModel.t) :=
  λ s, (Ok (shipment (working s) !! id), s).

Definition db_update_shipment (id : UUID)
    (f : ShipmentModel.t → ShipmentModel.t) : M () := λ s,
  (Ok (), {| committed := committed s;
             working := with_shipment (alter f id) (working s) |}).

Module ShipmentService.

Definition get_shipment (shipment_id : UUID) : M (option ShipmentModel.t) :=
  db_select_shipment shipment_id.

(** [now] is the value [datetime.now(UTC)] has during the call. *)
Definition update_shipment_status (now : datetime) (shipment_id : UUID)
    (status : ShipmentStatus) (update_timestamps : bool)
    : M (option ShipmentModel.t) :=
  shipment ← get_shipment shipment_id;
  match shipment with
  | None => mret None
  | Some shipment =>
      let update_data :=
        {| ud_status := status;
           ud_shipped_at := None; ud_delivered_at := None |} in
      let update_data :=
        if update_timestamps then
          if bool_decide (status = SHIPPED)
             && negb (opt_datetime_truthy
                        (ShipmentModel.shipped_at shipment))
          then {| ud_status := ud_status update_data;
                  ud_shipped_at := Some now;
                  ud_delivered_at := ud_delivered_at update_data |}
          else if bool_decide (status = DELIVERED)
                  && negb (opt_datetime_truthy
                             (ShipmentModel.delivered_at shipment))
          then {| ud_status := ud_status update_data;
                  ud_shipped_at := ud_shipped_at update_data;
                  ud_delivered_at := Some now |}
          else update_data
        else update_data in
      db_update_shipment shipment_id (apply_update_data update_data) ;;
      db_commit ;;
      get_shipment shipment_id
  end.

End ShipmentService.

(** * Vocabulary of the properties *)

(** What the handler [await db.rollback(); raise e] leaves. *)
Definition rolled_back (s : AsyncSession) : AsyncSession :=
  {| committed := committed s; working := committed s |}.

(** Total quantity the lines [l] (product, quantity) hold of [pid]. *)
Fixpoint quantity_of (pid : UUID) (l : list (UUID * Decimal)) : Decimal :=
  match l with
  | [] => 0
  | (p, q) :: l' =>
      if decide (p = pid) then q + quantity_of pid l' else quantity_of pid l'
  end.

(** The lines of a request, and of the stored items of an order. *)
Definition requested (items : list OrderItemCreate.t)
    : list (UUID * Decimal) :=
  map (λ i, (OrderItemCreate.product_id i, OrderItemCreate.quantity i)) items.

Definition ordered (items : list OrderItemModel.t) : list (UUID * Decimal) :=
  map (λ i, (OrderItemModel.product_id i, OrderItemModel.quantity i)) items.

(** [p'] is [p] with [delta] added to its stock and nothing else changed. *)
Definition stock_shift (delta : Decimal) (p p' : ProductModel.t) : Prop :=
  ProductModel.stock_quantity p' == ProductModel.stock_quantity p + delta
  ∧ ProductModel.set_stock_quantity 0 p' = ProductModel.set_stock_quantity 0 p.


(** The row the loop of [create_order] stores for a requested line. *)
Definition order_item_of (oid : UUID) (item : OrderItemCreate.t)
    : OrderItemModel.t :=
  {| OrderItemModel.order_id := oid;
     OrderItemModel.product_id := OrderItemCreate.product_id item;
     OrderItemModel.quantity := OrderItemCreate.quantity item;
     OrderItemModel.unit_price := OrderItemCreate.unit_price item;
     OrderItemModel.line_subtotal :=
       OrderItemCreate.quantity item * OrderItemCreate.unit_price item;
     OrderItemModel.line_discount := OrderItemCreate.line_discount item;
     OrderItemModel.line_total :=
       OrderItemCreate.quantity item * OrderItemCreate.unit_price item
       - OrderItemCreate.line_discount item |}.

(** [qi * pi - di] *)
Definition line_total_of (item : OrderItemCreate.t) : Decimal :=
  OrderItemCreate.quantity item * OrderItemCreate.unit_price item
  - OrderItemCreate.line_discount item.

(** Σ (qi * pi − di) *)
Fixpoint sum_line_totals (items : list OrderItemCreate.t) : Decimal :=
  match items with
  | [] => 0
  | i :: items' => line_total_of i + sum_line_totals items'
  end.

(** The order [o] with the rows [l] appended to its items. *)
Definition with_more_items (l : list OrderItemModel.t) (o : OrderModel.t)
    : OrderModel.t :=
  OrderModel.mk (OrderModel.base o) (OrderModel.status o)
    (OrderModel.payment_status o) (OrderModel.payment_provider o)
    (OrderModel.payment_reference o) (OrderModel.subtotal_amount o)
    (OrderModel.shipping_amount o) (OrderModel.discount_amount o)
    (OrderModel.total_amount o) (OrderModel.currency o)
    (OrderModel.internal_notes o) (OrderModel.order_items o ++ l).




(** Body of the loop of [cancel_order] (lines 237-240) and of
    [delete_order] (lines 264-267). *)
Definition restore_item (order_item : OrderItemModel.t) : M () :=
  product ← db_get_product (OrderItemModel.product_id order_item);
  match product with
  | Some product =>
      set_product_stock (OrderItemModel.product_id order_item)
        (ProductModel.stock_quantity product
         + OrderItemModel.quantity order_item)
  | None => mret ()
  end.

(** The call [create_paypal_payment] makes to the provider for order [o]. *)
Definition provider_create_call (paypal_provider : BasePaymentProvider)
    (order_id : UUID) (o : OrderModel.t) (return_url cancel_url : option string)
    : ProviderResult CreatedPayment :=
  create_payment (OrderModel.total_amount o) (OrderModel.currency o)
    ("Farm Order #" +:+ substring 0 8 (uuid_str order_id)
       +:+ " - From Field to You")
    return_url cancel_url (Some (uuid_str order_id)).

(** The order [o] once a payment [payment_id] has been opened for it. *)
Definition awaiting_payment (payment_id : string) (o : OrderModel.t)
    : OrderModel.t :=
  OrderModel.mk (OrderModel.base o) PENDING_PAYMENT PENDING (Some "PAYPAL")
    (Some payment_id) (OrderModel.subtotal_amount o)
    (OrderModel.shipping_amount o) (OrderModel.discount_amount o)
    (OrderModel.total_amount o) (OrderModel.currency o)
    (OrderModel.internal_notes o) (OrderModel.order_items o).

(** The payment status [refund_paypal_payment] writes after a refund of
    [amount] on an order whose total is [total] (lines 169-171). *)
Definition status_after_refund (amount : option Decimal) (total : Decimal)
    : PaymentStatus :=
  if opt_decimal_truthy amount && decimal_lt (default 0 amount) total
  then CAPTURED else REFUNDED.

(** The invariant of [Product]: no stock below zero. *)
Definition stock_nonneg (m : gmap N ProductModel.t) : Prop :=
  ∀ pid p, m !! pid = Some p → 0 <= ProductModel.stock_quantity p.

(** The check constraint [quantity > 0] of the [order_item] table. *)
Definition items_positive (m : gmap N OrderModel.t) : Prop :=
  ∀ oid o, m !! oid = Some o →
    Forall (λ i, 0 < OrderItemModel.quantity i) (OrderModel.order_items o).

(** A store, and a session, in which both hold. *)
Definition db_ok (d : Db) : Prop :=
  stock_nonneg (product d) ∧ items_positive (orders d).

Definition session_ok (s : AsyncSession) : Prop :=
  db_ok (committed s) ∧ db_ok (working s).

(** The operations of the services that write [stock_quantity]. *)
Inductive StockOp :=
| UpdateStock (product_id : UUID) (quantity_change : Decimal)
| CreateOrder (new_id : UUID) (order_data : OrderCreate.t)
| CancelOrder (order_id : UUID)
| DeleteOrder (order_id : UUID).

(** The arguments are those the request models accept. *)
Definition valid_op (op : StockOp) : Prop :=
  match op with
  | CreateOrder _ order_data => OrderCreate.valid order_data
  | _ => True
  end.

(** The session an operation leaves, whether it returns or raises. *)
Definition run_op (op : StockOp) (s : AsyncSession) : AsyncSession :=
  match op with
  | UpdateStock product_id quantity_change =>
      (ProductService.update_stock product_id quantity_change s).2
  | CreateOrder new_id order_data =>
      (OrderService.create_order new_id order_data s).2
  | CancelOrder order_id => (OrderService.cancel_order order_id s).2
  | DeleteOrder order_id => (OrderService.delete_order order_id s).2
  end.

(** A sequence of requests, each served to its end before the next. *)
Definition run_ops (ops : list StockOp) (s : AsyncSession) : AsyncSession :=
  foldl (λ s op, run_op op s) s ops.

(** The [update_data] of [update_shipment_status] (lines 164-172). *)
Definition status_update_data (now : datetime) (status : ShipmentStatus)
    (update_timestamps : bool) (sh : ShipmentModel.t) : ShipmentUpdateData :=
  if update_timestamps then
    if bool_decide (status = SHIPPED)
       && negb (opt_datetime_truthy (ShipmentModel.shipped_at sh))
    then {| ud_status := status; ud_shipped_at := Some now;
            ud_delivered_at := None |}
    else if bool_decide (status = DELIVERED)
            && negb (opt_datetime_truthy (ShipmentModel.delivered_at sh))
    then {| ud_status := status; ud_shipped_at := None;
            ud_delivered_at := Some now |}
    else {| ud_status := status; ud_shipped_at := None;
            ud_delivered_at := None |}
  else {| ud_status := status; ud_shipped_at := None;
          ud_delivered_at := None |}.

(** The row [update_shipment_status] writes. *)
Definition pushed (now : datetime) (status : ShipmentStatus)
    (update_timestamps : bool) (sh : ShipmentModel.t) : ShipmentModel.t :=
  apply_update_data (status_update_data now status update_timestamps sh) sh.

(** ** Sample data *)

Module Sample.

Definition base : OrderBase :=
  {| customer_id := 1; farmer_id := 2;
     shipping_name := Some "Dana"; shipping_phone := None;
     shipping_address1 := Some "1 Field Road"; shipping_address2 := None;
     shipping_city := Some "Haifa"; shipping_postal_code := None;
     shipping_country := "Israel"; customer_notes := None |}.

(** A product priced 10.00 a unit, with [stock] units in stock. *)
Definition tomato (stock : Decimal) : ProductModel.t :=
  {| ProductModel.farmer_id := 2; ProductModel.name := "tomato";
     ProductModel.price_per_unit := 10; ProductModel.currency := "ILS";
     ProductModel.stock_quantity := stock;
     ProductModel.min_order_quantity := 1;
     ProductModel.max_order_quantity := None;
     ProductModel.is_active := true |}.

(** A store whose only row is product 7. *)
Definition shop (stock : Decimal) : Db :=
  {| product := {[ 7%N := tomato stock ]}; orders := ∅; shipment := ∅ |}.

(** A request for [quantity] units of product 7 at [unit_price]. *)
Definition request (quantity unit_price : Decimal) : OrderCreate.t :=
  {| OrderCreate.base := base;
     OrderCreate.items :=
       [ {| OrderItemCreate.product_id := 7;
            OrderItemCreate.quantity := quantity;
            OrderItemCreate.unit_price := unit_price;
            OrderItemCreate.line_discount := 0 |} ];
     OrderCreate.shipping_amount := 0;
     OrderCreate.discount_amount := 0 |}.

(** The session after order 100, for 3 units, was placed on a stock
    of 5. *)
Definition placed : AsyncSession :=
  (OrderService.create_order 100 (request 3 10) (new_session (shop 5))).2.

(** The session after that order was cancelled. *)
Definition cancelled : AsyncSession :=
  (OrderService.cancel_order 100 placed).2.

(** An order of 30.00 paid through PayPal. *)
Definition paid_order : OrderModel.t :=
  {| OrderModel.base := base; OrderModel.status := PAID;
     OrderModel.payment_status := CAPTURED;
     OrderModel.payment_provider := Some "PAYPAL";
     OrderModel.payment_reference := Some "SALE-1";
     OrderModel.subtotal_amount := 30; OrderModel.shipping_amount := 0;
     OrderModel.discount_amount := 0; OrderModel.total_amount := 30;
     OrderModel.currency := "ILS"; OrderModel.internal_notes := None;
     OrderModel.order_items := [] |}.

Definition paid : AsyncSession :=
  new_session
    {| product := ∅; orders := {[ 100%N := paid_order ]}; shipment := ∅ |}.

(** A provider that accepts every call. *)
Definition approving_provider : BasePaymentProvider :=
  {| create_payment := λ _ _ _ _ _ _,
       ProviderSuccess
         {| created_payment_id := "PAY-1";
            created_approval_url := Some "https://paypal.example/approve" |};
     refund_payment := λ _ _,
       ProviderSuccess {| refund_id := "REF-1"; refund_state := "completed" |};
     provider_name := "PAYPAL" |}.

(** A shipment of order 100 that has not left yet. *)
Definition packed_shipment : ShipmentModel.t :=
  {| ShipmentModel.order_id := 100; ShipmentModel.status := PACKED;
     ShipmentModel.carrier_name := None;
     ShipmentModel.tracking_number := None;
     ShipmentModel.shipped_at := None;
     ShipmentModel.delivered_at := None |}.

Definition packed : AsyncSession :=
  new_session
    {| product := ∅; orders := ∅;
       shipment := {[ 5%N := packed_shipment ]} |}.

End Sample.

(** * The rest of the service layer *)

(** ** [OrderService]: status and payment updates
       ([api/orders/service.py], lines 176-223) *)

Module OrderStatusUpdates.

Definition update_order_status (order_id : UUID) (status : OrderStatus)
    : M (option OrderModel.t) :=
  order ← OrderService.get_order order_id;
  match order with
  | None => mret None
  | Some _ =>
      db_update_order order_id (OrderModel.set_status status) ;;
      db_commit ;;
      OrderService.get_order order_id
  end.

Definition update_payment_status (order_id : UUID)
    (payment_status : PaymentStatus) (payment_reference : option string)
    : M (option OrderModel.t) :=
  order ← OrderService.get_order order_id;
  match order with
  | None => mret None
  | Some _ =>
      (* update_data = {"payment_status": ...}, plus the reference when it
         is a non-empty string *)
      db_update_order order_id
        (λ o, let o := OrderModel.set_payment_status payment_status o in
              if opt_str_truthy payment_reference
              then OrderModel.set_payment_reference payment_reference o
              else o) ;;
      db_commit ;;
      OrderService.get_order order_id
  end.

End OrderStatusUpdates.

(** ** Order routes ([api/orders/routes.py]) *)

(** The [detail] of an [HTTPException]: a literal, or [str(e)] of the
    [ValueError] the route caught. *)
Inductive Detail :=
| DetailText (text : string)
| DetailOf (kind : ValueErrorKind).

(** What a route hands to the framework: the value it returns, sent with
    the status code of its decorator, or the [HTTPException] it raises.
    Any other exception leaves the route as it left the service. *)
Inductive Response (A : Type) :=
| Returned (status_code : nat) (body : A)
| HTTPException (status_code : nat) (detail : Detail).
Arguments Returned {A} status_code body.
Arguments HTTPException {A} status_code detail.

(** [try: body except ValueError as e: raise HTTPException(400, str(e))] *)
Definition except_ValueError {A} (body : M (Response A)) : M (Response A) :=
  try_except body
    (λ e, match e with
          | ValueError kind => mret (HTTPException 400 (DetailOf kind))
          | _ => raise e
          end).

Module OrderRoutes.

Definition get_order (order_id : UUID) : M (Response OrderModel.t) :=
  order ← OrderService.get_order order_id;
  match order with
  | None => mret (HTTPException 404 (DetailText "Order not found"))
  | Some order => mret (Returned 200 order)
  end.

(** The service answers [Optional[OrderModel]]; the route returns it as it
    is, with status 201. *)
Definition create_order (new_id : UUID) (order : OrderCreate.t)
    : M (Response (option OrderModel.t)) :=
  except_ValueError
    (created ← OrderService.create_order new_id order;
     mret (Returned 201 created)).

Definition delete_order (order_id : UUID) : M (Response ()) :=
  except_ValueError
    (success ← OrderService.delete_order order_id;
     if negb success
     then mret (HTTPException 404 (DetailText "Order not found"))
     else mret (Returned 204 ())).

Definition update_order_status (order_id : UUID) (status : OrderStatus)
    : M (Response OrderModel.t) :=
  order ← OrderStatusUpdates.update_order_status order_id status;
  match order with
  | None => mret (HTTPException 404 (DetailText "Order not found"))
  | Some order => mret (Returned 200 order)
  end.

Definition update_payment_status (order_id : UUID)
    (payment_status : PaymentStatus) (payment_reference : option string)
    : M (Response OrderModel.t) :=
  order ← OrderStatusUpdates.update_payment_status order_id payment_status
            payment_reference;
  match order with
  | None => mret (HTTPException 404 (DetailText "Order not found"))
  | Some order => mret (Returned 200 order)
  end.

Definition cancel_order (order_id : UUID) : M (Response OrderModel.t) :=
  except_ValueError
    (order ← OrderService.cancel_order order_id;
     match order with
     | None => mret (HTTPException 404 (DetailText "Order not found"))
     | Some order => mret (Returned 200 order)
     end).

End OrderRoutes.

(** ** [PaymentService.execute_paypal_payment]
       ([api/payments/service.py], lines 81-122) *)

(** The answer of the provider's [execute_payment] when it succeeds. *)
Record ExecutedPayment := {
  executed_payment_id : string;
  executed_payment_state : option string;
  executed_transaction_id : option string;
  executed_amount : option string;
  executed_currency : option string;
  (** the [custom] field of the transaction: the order id given when the
      payment was created *)
  executed_order_id : option string;
}.

(** The method of [BasePaymentProvider] that completes a payment. *)
Class PaymentExecution := {
  execute_payment :
    ∀ (payment_id payer_id : string), ProviderResult ExecutedPayment;
}.

Inductive ExecutionError :=
| ExecutionFailed (error : string)
    (* f"PayPal payment execution failed: {...}" *)
| ExecutionInternalError.
    (* "Internal server error" *)

Record PaymentExecuted := {
  pe_payment_id : string;
  pe_transaction_id : option string;
  pe_payment_state : option string;
  pe_order_id : option string;
  pe_amount : option string;
  pe_currency : option string;
}.

Inductive ExecutionAnswer :=
| Executed (a : PaymentExecuted)       (* {"success": True, ...} *)
| NotExecuted (error : ExecutionError). (* {"success": False, ...} *)

(** [a or b] on an optional string and a string. *)
Definition opt_str_or (a : option string) (b : string) : string :=
  if opt_str_truthy a then default "" a else b.

Module PaymentCompletion.
Section WithProvider.
Context (paypal_provider : PaymentExecution).
(** [uuid.UUID(text)]: the identifier a text denotes, [None] where the
    constructor raises [ValueError]. *)
Context (UUID_of_str : string → option UUID).

Definition execute_paypal_payment (payment_id payer_id : string)
    : M ExecutionAnswer :=
  try_except
    (let execution_result := execute_payment payment_id payer_id in
     match execution_result with
     | ProviderFailure error => mret (NotExecuted (ExecutionFailed error))
     | ProviderSuccess execution =>
         let order_id := executed_order_id execution in
         (if opt_str_truthy order_id
          then
            match UUID_of_str (default "" order_id) with
            | Some order_uuid =>
                db_update_order order_uuid
                  (λ o, OrderModel.set_payment_reference
                          (Some (opt_str_or
                                   (executed_transaction_id execution)
                                   payment_id))
                          (OrderModel.set_status PAID
                             (OrderModel.set_payment_status CAPTURED o))) ;;
                db_commit
            | None => mret ()  (* except ValueError: a warning is logged *)
            end
          else mret ()) ;;
         mret (Executed
                 {| pe_payment_id := payment_id;
                    pe_transaction_id := executed_transaction_id execution;
                    pe_payment_state := executed_payment_state execution;
                    pe_order_id := order_id;
                    pe_amount := executed_amount execution;
                    pe_currency := executed_currency execution |})
     end)
    (λ e, db_rollback ;; mret (NotExecuted ExecutionInternalError)).

End WithProvider.
End PaymentCompletion.

(** ** Exceptions of the remaining functions *)

(** Payload of the [ValueError]s of the shipment service. *)
Inductive ShipmentErrorKind :=
| ShipmentOrderNotFound
    (* "Order not found" *)
| OrderAlreadyHasShipment
    (* "Order already has a shipment" *)
| CannotCancelDelivered
    (* "Cannot cancel delivered shipment" *)
| CannotDeleteShipped.
    (* "Cannot delete shipped or delivered shipment" *)

Inductive ServiceException :=
| Earlier (e : Exception)  (* the exceptions described so far *)
| ShipmentValueError (kind : ShipmentErrorKind)
| TypeError                (* arithmetic on [None] *)
| MultipleResultsFound.    (* [scalar_one_or_none()] on several rows *)

Inductive Outcome (A : Type) :=
| Done (a : A)
| Failed (e : ServiceException).
Arguments Done {A} a.
Arguments Failed {A} e.

(** Coroutines that may raise a [ServiceException]. *)
Definition Service (A : Type) : Type := AsyncSession → Outcome A * AsyncSession.

#[global] Instance Service_ret : MRet Service := λ A a s, (Done a, s).
#[global] Instance Service_bind : MBind Service := λ A B f m s,
  match m s with
  | (Done a, s') => f a s'
  | (Failed e, s') => (Failed e, s')
  end.

Definition fail {A} (e : ServiceException) : Service A := λ s, (Failed e, s).

(** [await] of a coroutine described earlier. *)
Definition call {A} (m : M A) : Service A := λ s,
  match m s with
  | (Ok a, s') => (Done a, s')
  | (Raise e, s') => (Failed (Earlier e), s')
  end.

(** ** Update models under [exclude_unset] *)

(** A field of an update model: left out of the request, or set. *)
Inductive Patch (A : Type) :=
| Unset
| SetTo (a : A).
Arguments Unset {A}.
Arguments SetTo {A} a.

(** [key in update_data] *)
Definition is_set {A} (p : Patch A) : bool :=
  match p with
  | Unset => false
  | SetTo _ => true
  end.

(** [update_data.get(key, default)] *)
Definition patch_get {A} (p : Patch A) (default : A) : A :=
  match p with
  | Unset => default
  | SetTo a => a
  end.

(** ** [OrderService.update_order] ([api/orders/service.py], lines 144-174) *)

Module OrderUpdate.
Record t := mk {
  status : Patch (option OrderStatus);
  payment_status : Patch (option PaymentStatus);
  payment_provider : Patch (option string);
  payment_reference : Patch (option string);
  shipping_amount : Patch (option Decimal);  (* ge=0 *)
  discount_amount : Patch (option Decimal);  (* ge=0 *)
  shipping_name : Patch (option string);
  shipping_phone : Patch (option string);
  shipping_address1 : Patch (option string);
  shipping_address2 : Patch (option string);
  shipping_city : Patch (option string);
  shipping_postal_code : Patch (option string);
  (** the row record holds a country: a request that sets this field to
      null is not covered *)
  shipping_country : Patch string;
  customer_notes : Patch (option string);
  internal_notes : Patch (option string);
}.

(** [not update_data] *)
Definition is_empty (u : t) : bool :=
  negb (is_set (status u) || is_set (payment_status u)
        || is_set (payment_provider u) || is_set (payment_reference u)
        || is_set (shipping_amount u) || is_set (discount_amount u)
        || is_set (shipping_name u) || is_set (shipping_phone u)
        || is_set (shipping_address1 u) || is_set (shipping_address2 u)
        || is_set (shipping_city u) || is_set (shipping_postal_code u)
        || is_set (shipping_country u) || is_set (customer_notes u)
        || is_set (internal_notes u)).

(** A null for a column declared [nullable=False]. *)
Definition nulls_required_column (u : t) : bool :=
  match status u, payment_status u with
  | SetTo None, _ | _, SetTo None => true
  | _, _ => false
  end.
End OrderUpdate.

(** A column that cannot hold null, once the [update] statement ran. *)
Definition patched_required {A} (p : Patch (option A)) (old : A) : A :=
  match p with
  | SetTo (Some a) => a
  | _ => old
  end.

(** The row after [update(OrderModel).values(update_data)]; [total] is the
    [total_amount] entry the service may have added. *)
Definition apply_order_update (u : OrderUpdate.t) (total : Patch Decimal)
    (o : OrderModel.t) : OrderModel.t :=
  let b := OrderModel.base o in
  {| OrderModel.base :=
       {| customer_id := customer_id b;
          farmer_id := farmer_id b;
          shipping_name :=
            patch_get (OrderUpdate.shipping_name u) (shipping_name b);
          shipping_phone :=
            patch_get (OrderUpdate.shipping_phone u) (shipping_phone b);
          shipping_address1 :=
            patch_get (OrderUpdate.shipping_address1 u) (shipping_address1 b);
          shipping_address2 :=
            patch_get (OrderUpdate.shipping_address2 u) (shipping_address2 b);
          shipping_city :=
            patch_get (OrderUpdate.shipping_city u) (shipping_city b);
          shipping_postal_code :=
            patch_get (OrderUpdate.shipping_postal_code u)
              (shipping_postal_code b);
          shipping_country :=
            patch_get (OrderUpdate.shipping_country u) (shipping_country b);
          customer_notes :=
            patch_get (OrderUpdate.customer_notes u) (customer_notes b) |};
     OrderModel.status :=
       patched_required (OrderUpdate.status u) (OrderModel.status o);
     OrderModel.payment_status :=
       patched_required (OrderUpdate.payment_status u)
         (OrderModel.payment_status o);
     OrderModel.payment_provider :=
       patch_get (OrderUpdate.payment_provider u)
         (OrderModel.payment_provider o);
     OrderModel.payment_reference :=
       patch_get (OrderUpdate.payment_reference u)
         (OrderModel.payment_reference o);
     OrderModel.subtotal_amount := OrderModel.subtotal_amount o;
     OrderModel.shipping_amount :=
       patched_required (OrderUpdate.shipping_amount u)
         (OrderModel.shipping_amount o);
     OrderModel.discount_amount :=
       patched_required (OrderUpdate.discount_amount u)
         (OrderModel.discount_amount o);
     OrderModel.total_amount := patch_get total (OrderModel.total_amount o);
     OrderModel.currency := OrderModel.currency o;
     OrderModel.internal_notes :=
       patch_get (OrderUpdate.internal_notes u) (OrderModel.internal_notes o);
     OrderModel.order_items := OrderModel.order_items o |}.

Module OrderUpdates.

Definition update_order (order_id : UUID) (order_update : OrderUpdate.t)
    : Service (option OrderModel.t) :=
  order ← call (OrderService.get_order order_id);
  match order with
  | None => mret None
  | Some order =>
      if OrderUpdate.is_empty order_update
      then mret (Some order)
      else
        (* the total is recalculated when shipping or discount changed *)
        total ←
          (if is_set (OrderUpdate.shipping_amount order_update)
              || is_set (OrderUpdate.discount_amount order_update)
           then
             let shipping_amount :=
               patch_get (OrderUpdate.shipping_amount order_update)
                 (Some (OrderModel.shipping_amount order)) in
             let discount_amount :=
               patch_get (OrderUpdate.discount_amount order_update)
                 (Some (OrderModel.discount_amount order)) in
             match shipping_amount, discount_amount with
             | Some shipping_amount, Some discount_amount =>
                 mret (SetTo (OrderModel.subtotal_amount order
                              + shipping_amount - discount_amount))
             | _, _ => fail TypeError
             end
           else mret Unset);
        (if OrderUpdate.nulls_required_column order_update
         then fail (Earlier IntegrityError)
         else
           call (db_update_order order_id
                   (apply_order_update order_update total))) ;;
        call db_commit ;;
        call (OrderService.get_order order_id)
  end.

End OrderUpdates.

(** ** The rest of [ShipmentService] ([api/shipments/service.py]) *)

(** [ShipmentBase] and [ShipmentUpdate] also carry an estimated delivery
    date and address overrides; they go to columns the row record leaves
    out and take no part in any decision. *)
Module ShipmentCreate.
Record t := mk {
  order_id : UUID;
  carrier_name : option string;
  tracking_number : option string;
}.
End ShipmentCreate.

Module ShipmentUpdate.
Record t := mk {
  status : Patch (option ShipmentStatus);
  carrier_name : Patch (option string);
  tracking_number : Patch (option string);
  shipped_at : Patch (option datetime);
  delivered_at : Patch (option datetime);
  (** whether the request sets one of the fields left out here *)
  sets_other_fields : bool;
}.

(** [not update_data] *)
Definition is_empty (u : t) : bool :=
  negb (is_set (status u) || is_set (carrier_name u)
        || is_set (tracking_number u) || is_set (shipped_at u)
        || is_set (delivered_at u) || sets_other_fields u).
End ShipmentUpdate.

(** The row after [update(ShipmentModel).values(update_data)]. *)
Definition apply_shipment_update (u : ShipmentUpdate.t) (sh : ShipmentModel.t)
    : ShipmentModel.t :=
  {| ShipmentModel.order_id := ShipmentModel.order_id sh;
     ShipmentModel.status :=
       patched_required (ShipmentUpdate.status u) (ShipmentModel.status sh);
     ShipmentModel.carrier_name :=
       patch_get (ShipmentUpdate.carrier_name u)
         (ShipmentModel.carrier_name sh);
     ShipmentModel.tracking_number :=
       patch_get (ShipmentUpdate.tracking_number u)
         (ShipmentModel.tracking_number sh);
     ShipmentModel.shipped_at :=
       patch_get (ShipmentUpdate.shipped_at u) (ShipmentModel.shipped_at sh);
     ShipmentModel.delivered_at :=
       patch_get (ShipmentUpdate.delivered_at u)
         (ShipmentModel.delivered_at sh) |}.

(** The rows of [shipment] a [where] clause selects, each with its key. *)
Definition db_select_shipments (selects : ShipmentModel.t → bool)
    : Service (list (UUID * ShipmentModel.t)) := λ s,
  (Done (map_to_list
           (filter (λ kv, selects kv.2 = true) (shipment (working s)))), s).

(** [result.scalar_one_or_none()] *)
Definition scalar_one_or_none {A} (rows : list A) : Service (option A) :=
  match rows with
  | [] => mret None
  | [row] => mret (Some row)
  | _ => fail MultipleResultsFound
  end.

(** [db.add(db_shipment); await db.commit()]: the row goes in under the key
    the server default produced, and the transaction is committed. *)
Definition db_add_shipment_commit (id : UUID) (sh : ShipmentModel.t)
    : Service () := λ s,
  match shipment (working s) !! id with
  | Some _ => (Failed (Earlier IntegrityError), s)
  | None =>
      let w := with_shipment (insert id sh) (working s) in
      (Done (), {| committed := w; working := w |})
  end.

(** [delete(ShipmentModel).where(ShipmentModel.id == id)] *)
Definition db_delete_shipment (id : UUID) : M () := λ s,
  (Ok (), {| committed := committed s;
             working := with_shipment (delete id) (working s) |}).

Module Shipments.

(** The shipment of an order, with its key. *)
Definition get_shipment_by_order (order_id : UUID)
    : Service (option (UUID * ShipmentModel.t)) :=
  rows ← db_select_shipments
           (λ sh, bool_decide (ShipmentModel.order_id sh = order_id));
  scalar_one_or_none rows.

Definition get_shipment_by_tracking (tracking_number : string)
    : Service (option (UUID * ShipmentModel.t)) :=
  rows ← db_select_shipments
           (λ sh, bool_decide
                    (ShipmentModel.tracking_number sh = Some tracking_number));
  scalar_one_or_none rows.

(** [new_id] is the key the store gives the new row. *)
Definition create_shipment (new_id : UUID) (shipment_data : ShipmentCreate.t)
    : Service (option ShipmentModel.t) :=
  order ← call (db_select_order (ShipmentCreate.order_id shipment_data));
  match order with
  | None => fail (ShipmentValueError ShipmentOrderNotFound)
  | Some _ =>
      existing_shipment ←
        get_shipment_by_order (ShipmentCreate.order_id shipment_data);
      match existing_shipment with
      | Some _ => fail (ShipmentValueError OrderAlreadyHasShipment)
      | None =>
          let db_shipment :=
            {| ShipmentModel.order_id :=
                 ShipmentCreate.order_id shipment_data;
               ShipmentModel.status := SHIPMENT_PENDING;
               ShipmentModel.carrier_name :=
                 ShipmentCreate.carrier_name shipment_data;
               ShipmentModel.tracking_number :=
                 ShipmentCreate.tracking_number shipment_data;
               ShipmentModel.shipped_at := None;
               ShipmentModel.delivered_at := None |} in
          db_add_shipment_commit new_id db_shipment ;;
          call (ShipmentService.get_shipment new_id)
      end
  end.

Definition update_shipment (shipment_id : UUID)
    (shipment_update : ShipmentUpdate.t) : Service (option ShipmentModel.t) :=
  shipment ← call (ShipmentService.get_shipment shipment_id);
  match shipment with
  | None => mret None
  | Some shipment =>
      if ShipmentUpdate.is_empty shipment_update
      then mret (Some shipment)
      else
        (match ShipmentUpdate.status shipment_update with
         | SetTo None => fail (Earlier IntegrityError)
         | _ =>
             call (db_update_shipment shipment_id
                     (apply_shipment_update shipment_update))
         end) ;;
        call db_commit ;;
        call (ShipmentService.get_shipment shipment_id)
  end.

(** [now] is the value [datetime.now(UTC)] has during the call; [new_id] is
    the key the store would give a new row. *)
Definition ship_order (now : datetime) (new_id : UUID) (order_id : UUID)
    (carrier_name tracking_number : string)
    : Service (option ShipmentModel.t) :=
  shipment ← get_shipment_by_order order_id;
  match shipment with
  | Some (shipment_id, _) =>
      let shipment_update :=
        {| ShipmentUpdate.status := SetTo (Some SHIPPED);
           ShipmentUpdate.carrier_name := SetTo (Some carrier_name);
           ShipmentUpdate.tracking_number := SetTo (Some tracking_number);
           ShipmentUpdate.shipped_at := SetTo (Some now);
           ShipmentUpdate.delivered_at := Unset;
           ShipmentUpdate.sets_other_fields := false |} in
      update_shipment shipment_id shipment_update
  | None =>
      let shipment_create :=
        {| ShipmentCreate.order_id := order_id;
           ShipmentCreate.carrier_name := Some carrier_name;
           ShipmentCreate.tracking_number := Some tracking_number |} in
      create_shipment new_id shipment_create ;;
      call (ShipmentService.update_shipment_status now new_id SHIPPED true)
  end.

Definition deliver_shipment (now : datetime) (shipment_id : UUID)
    : Service (option ShipmentModel.t) :=
  call (ShipmentService.update_shipment_status now shipment_id DELIVERED true).

(** With timestamp updates off the callee never reads the clock; [now]
    stands for the time it would have read. *)
Definition cancel_shipment (now : datetime) (shipment_id : UUID)
    : Service (option ShipmentModel.t) :=
  shipment ← call (ShipmentService.get_shipment shipment_id);
  match shipment with
  | None => mret None
  | Some shipment =>
      if bool_decide (ShipmentModel.status shipment = DELIVERED)
      then fail (ShipmentValueError CannotCancelDelivered)
      else
        call (ShipmentService.update_shipment_status now shipment_id
                SHIPMENT_CANCELLED false)
  end.

Definition delete_shipment (shipment_id : UUID) : Service bool :=
  shipment ← call (ShipmentService.get_shipment shipment_id);
  match shipment with
  | None => mret false
  | Some shipment =>
      if bool_decide (ShipmentModel.status shipment ∈ [SHIPPED; DELIVERED])
      then fail (ShipmentValueError CannotDeleteShipped)
      else
        call (db_delete_shipment shipment_id) ;;
        call db_commit ;;
        mret true
  end.

End Shipments.

(** ** [ProductService.get_category_emoji]
       ([api/products/service.py], lines 326-361) *)

(** [prefix] starts [text]. *)
Fixpoint is_prefix (prefix text : string) : bool :=
  match prefix, text with
  | EmptyString, _ => true
  | String _ _, EmptyString => false
  | String a prefix', String b text' =>
      Ascii.eqb a b && is_prefix prefix' text'
  end.

(** [needle in text], on strings. *)
Fixpoint str_in (needle text : string) : bool :=
  is_prefix needle text
  || match text with
     | EmptyString => false
     | String _ text' => str_in needle text'
     end.

(** What [d.get(key)] finds in a dictionary. *)
Inductive Entry (A : Type) :=
| Missing        (* no such key *)
| Null           (* the key holds [None] *)
| Present (a : A).
Arguments Missing {A}.
Arguments Null {A}.
Arguments Present {A} a.

(** The category of a product as the pages hand it over: a name, or a
    record with a [name] entry. *)
Inductive CategoryValue :=
| CategoryName (name : string)
| CategoryRecord (name : Entry string).

Module ProductDisplay.
Section WithLower.
(** [str.lower] *)
Context (lower : string → string).

(** The literals are those of the source file, byte for byte. *)
Definition placeholder_map : list (string * string) :=
  [
    ("vegetables", "ðŸ¥¬");
    ("fruits", "ðŸŽ");
    ("herbs", "ðŸŒ¿");
    ("grains", "ðŸŒ¾");
    ("specialty items", "ðŸ¥•");
    ("dairy", "ðŸ¥›");
    ("meat", "ðŸ¥©");
    ("berries", "ðŸ«");
    ("citrus", "ðŸŠ");
    ("root vegetables", "ðŸ¥•");
    ("leafy greens", "ðŸ¥¬")
  ].

Definition default_emoji : string := "ðŸ¥•".

(** The loop over [placeholder_map.items()], which stops at the first key
    found in the category. *)
Fixpoint first_match (items : list (string * string)) (category : string)
    (emoji : string) : string :=
  match items with
  | [] => emoji
  | (cat_key, cat_emoji) :: items' =>
      if str_in cat_key category then cat_emoji
      else first_match items' category emoji
  end.

(** [None] stands for the [AttributeError] of [None.lower()]. *)
Definition get_category_emoji (category : Entry CategoryValue)
    : option string :=
  let name :=
    match category with
    | Present (CategoryRecord name) =>
        match name with
        | Missing => Some "Fresh Produce"
        | Null => None
        | Present name => Some name
        end
    | Missing => Some "Fresh Produce"
    | Null => None
    | Present (CategoryName name) => Some name
    end in
  match name with
  | None => None
  | Some name =>
      let category := lower name in
      Some (first_match placeholder_map category default_emoji)
  end.

End WithLower.
End ProductDisplay.

(** * Vocabulary of the further properties *)

(** The emoji written in [placeholder_map] for a key. *)
Definition written_for (cat_key : string) : option string :=
  (λ found, found.2.2)
    <$> list_find (λ item, item.1 = cat_key) ProductDisplay.placeholder_map.


(** The order [o] once a payment was captured for it under [reference]. *)
Definition paid_with (reference : string) (o : OrderModel.t) : OrderModel.t :=
  OrderModel.mk (OrderModel.base o) PAID CAPTURED
    (OrderModel.payment_provider o) (Some reference)
    (OrderModel.subtotal_amount o) (OrderModel.shipping_amount o)
    (OrderModel.discount_amount o) (OrderModel.total_amount o)
    (OrderModel.currency o) (OrderModel.internal_notes o)
    (OrderModel.order_items o).

(** The answer [execute_paypal_payment] builds from the provider's. *)
Definition execution_report (payment_id : string) (ex : ExecutedPayment)
    : PaymentExecuted :=
  {| pe_payment_id := payment_id;
     pe_transaction_id := executed_transaction_id ex;
     pe_payment_state := executed_payment_state ex;
     pe_order_id := executed_order_id ex;
     pe_amount := executed_amount ex;
     pe_currency := executed_currency ex |}.

(** The order the provider's answer points to, if it names one. *)
Definition reconciled_order (UUID_of_str : string → option UUID)
    (ex : ExecutedPayment) : option UUID :=
  if opt_str_truthy (executed_order_id ex)
  then UUID_of_str (default "" (executed_order_id ex))
  else None.

(** The [total_amount] entry [update_order] adds to [update_data]: none
    unless shipping or discount is set. *)
Definition recalculated_total (u : OrderUpdate.t) (o : OrderModel.t)
    : Patch Decimal :=
  if is_set (OrderUpdate.shipping_amount u)
     || is_set (OrderUpdate.discount_amount u)
  then SetTo (OrderModel.subtotal_amount o
              + patched_required (OrderUpdate.shipping_amount u)
                  (OrderModel.shipping_amount o)
              - patched_required (OrderUpdate.discount_amount u)
                  (OrderModel.discount_amount o))
  else Unset.

(** The request sets shipping or discount to null. *)
Definition nulls_amount (u : OrderUpdate.t) : bool :=
  match OrderUpdate.shipping_amount u, OrderUpdate.discount_amount u with
  | SetTo None, _ | _, SetTo None => true
  | _, _ => false
  end.






(** The unique constraint on [shipment.order_id]. *)
Definition one_shipment_per_order (m : gmap N ShipmentModel.t) : Prop :=
  ∀ i j x y, m !! i = Some x → m !! j = Some y →
    ShipmentModel.order_id x = ShipmentModel.order_id y → i = j.

Definition shipments_unique (s : AsyncSession) : Prop :=
  one_shipment_per_order (shipment (committed s))
  ∧ one_shipment_per_order (shipment (working s)).

(** The row [create_shipment] stores. *)
Definition new_shipment_row (shipment_data : ShipmentCreate.t)
    : ShipmentModel.t :=
  {| ShipmentModel.order_id := ShipmentCreate.order_id shipment_data;
     ShipmentModel.status := SHIPMENT_PENDING;
     ShipmentModel.carrier_name := ShipmentCreate.carrier_name shipment_data;
     ShipmentModel.tracking_number :=
       ShipmentCreate.tracking_number shipment_data;
     ShipmentModel.shipped_at := None;
     ShipmentModel.delivered_at := None |}.

(** The rows of [shipment] that belong to an order, each with its key. *)
Definition shipments_of (order_id : UUID) (d : Db)
    : list (UUID * ShipmentModel.t) :=
  map_to_list
    (filter (λ kv, bool_decide (ShipmentModel.order_id kv.2 = order_id) = true)
       (shipment d)).

(** The request [ship_order] builds for a shipment that exists. *)
Definition shipped_update (now : datetime) (carrier_name tracking_number : string)
    : ShipmentUpdate.t :=
  {| ShipmentUpdate.status := SetTo (Some SHIPPED);
     ShipmentUpdate.carrier_name := SetTo (Some carrier_name);
     ShipmentUpdate.tracking_number := SetTo (Some tracking_number);
     ShipmentUpdate.shipped_at := SetTo (Some now);
     ShipmentUpdate.delivered_at := Unset;
     ShipmentUpdate.sets_other_fields := false |}.

(** A shipment of [order_id] that left at [now]. *)
Definition shipped_row (now : datetime) (order_id : UUID)
    (carrier_name tracking_number : string)
    (delivered_at : option datetime) : ShipmentModel.t :=
  {| ShipmentModel.order_id := order_id;
     ShipmentModel.status := SHIPPED;
     ShipmentModel.carrier_name := Some carrier_name;
     ShipmentModel.tracking_number := Some tracking_number;
     ShipmentModel.shipped_at := Some now;
     ShipmentModel.delivered_at := delivered_at |}.

(** The operations that write the [shipment] table. *)
Inductive ShipmentOp :=
| ShCreate (new_id : UUID) (shipment_data : ShipmentCreate.t)
| ShUpdate (shipment_id : UUID) (shipment_update : ShipmentUpdate.t)
| ShSetStatus (now : datetime) (shipment_id : UUID) (status : ShipmentStatus)
    (update_timestamps : bool)
| ShShipOrder (now : datetime) (new_id order_id : UUID)
    (carrier_name tracking_number : string)
| ShDeliver (now : datetime) (shipment_id : UUID)
| ShCancel (now : datetime) (shipment_id : UUID)
| ShDelete (shipment_id : UUID)
| ShDeleteOrder (order_id : UUID).

(** The session an operation leaves, whether it returns or raises. *)
Definition run_shipment_op (op : ShipmentOp) (s : AsyncSession)
    : AsyncSession :=
  match op with
  | ShCreate new_id shipment_data =>
      (Shipments.create_shipment new_id shipment_data s).2
  | ShUpdate shipment_id shipment_update =>
      (Shipments.update_shipment shipment_id shipment_update s).2
  | ShSetStatus now shipment_id status update_timestamps =>
      (ShipmentService.update_shipment_status now shipment_id status
         update_timestamps s).2
  | ShShipOrder now new_id order_id carrier_name tracking_number =>
      (Shipments.ship_order now new_id order_id carrier_name
         tracking_number s).2
  | ShDeliver now shipment_id => (Shipments.deliver_shipment now shipment_id s).2
  | ShCancel now shipment_id => (Shipments.cancel_shipment now shipment_id s).2
  | ShDelete shipment_id => (Shipments.delete_shipment shipment_id s).2
  | ShDeleteOrder order_id => (OrderService.delete_order order_id s).2
  end.

(** * Further sample data *)

Module Scenario.

(** Two lines of 2 units each for product 7. *)
Definition split_request : OrderCreate.t :=
  {| OrderCreate.base := Sample.base;
     OrderCreate.items :=
       [ {| OrderItemCreate.product_id := 7;
            OrderItemCreate.quantity := 2;
            OrderItemCreate.unit_price := 10;
            OrderItemCreate.line_discount := 0 |};
         {| OrderItemCreate.product_id := 7;
            OrderItemCreate.quantity := 2;
            OrderItemCreate.unit_price := 10;
            OrderItemCreate.line_discount := 0 |} ];
     OrderCreate.shipping_amount := 0;
     OrderCreate.discount_amount := 0 |}.

(** A provider that completes every payment and names order 100. *)
Definition completing_provider : PaymentExecution :=
  {| execute_payment := λ payment_id _,
       ProviderSuccess
         {| executed_payment_id := payment_id;
            executed_payment_state := Some "approved";
            executed_transaction_id := Some "SALE-1";
            executed_amount := Some "30.00";
            executed_currency := Some "ILS";
            executed_order_id := Some (uuid_str 100) |} |}.

(** A reader of identifiers that knows the text of order 100. *)
Definition UUID_of_str (text : string) : option UUID :=
  if bool_decide (text = uuid_str 100) then Some 100%N else None.

(** A request that sets no field. *)
Definition no_update : OrderUpdate.t :=
  {| OrderUpdate.status := Unset; OrderUpdate.payment_status := Unset;
     OrderUpdate.payment_provider := Unset;
     OrderUpdate.payment_reference := Unset;
     OrderUpdate.shipping_amount := Unset;
     OrderUpdate.discount_amount := Unset;
     OrderUpdate.shipping_name := Unset; OrderUpdate.shipping_phone := Unset;
     OrderUpdate.shipping_address1 := Unset;
     OrderUpdate.shipping_address2 := Unset;
     OrderUpdate.shipping_city := Unset;
     OrderUpdate.shipping_postal_code := Unset;
     OrderUpdate.shipping_country := Unset;
     OrderUpdate.customer_notes := Unset;
     OrderUpdate.internal_notes := Unset |}.

(** A request that sets the shipping amount to 5.00 and nothing else. *)
Definition shipping_update : OrderUpdate.t :=
  {| OrderUpdate.status := Unset; OrderUpdate.payment_status := Unset;
     OrderUpdate.payment_provider := Unset;
     OrderUpdate.payment_reference := Unset;
     OrderUpdate.shipping_amount := SetTo (Some 5);
     OrderUpdate.discount_amount := Unset;
     OrderUpdate.shipping_name := Unset; OrderUpdate.shipping_phone := Unset;
     OrderUpdate.shipping_address1 := Unset;
     OrderUpdate.shipping_address2 := Unset;
     OrderUpdate.shipping_city := Unset;
     OrderUpdate.shipping_postal_code := Unset;
     OrderUpdate.shipping_country := Unset;
     OrderUpdate.customer_notes := Unset;
     OrderUpdate.internal_notes := Unset |}.

(** A parcel for order 100. *)
Definition parcel : ShipmentCreate.t :=
  {| ShipmentCreate.order_id := 100;
     ShipmentCreate.carrier_name := Some "Post";
     ShipmentCreate.tracking_number := Some "RR1" |}.

(** Order 100, paid, with its shipment packed. *)
Definition packed_order : AsyncSession :=
  new_session
    {| product := ∅; orders := {[ 100%N := Sample.paid_order ]};
       shipment := {[ 5%N := Sample.packed_shipment ]} |}.

(** A shipment of [order_id] under the tracking number RR1. *)
Definition tracked (order_id : UUID) : ShipmentModel.t :=
  {| ShipmentModel.order_id := order_id; ShipmentModel.status := SHIPPED;
     ShipmentModel.carrier_name := Some "Post";
     ShipmentModel.tracking_number := Some "RR1";
     ShipmentModel.shipped_at := Some 1000%Z;
     ShipmentModel.delivered_at := None |}.

(** Shipments of two orders under one tracking number. *)
Definition two_parcels : AsyncSession :=
  new_session
    {| product := ∅; orders := ∅;
       shipment := {[ 5%N := tracked 100; 6%N := tracked 101 ]} |}.

(** [str.lower] on the letters A to Z. *)
Definition lower_ascii (c : ascii) : ascii :=
  let n := N_of_ascii c in
  if (65 <=? n)%N && (n <=? 90)%N then ascii_of_N (n + 32) else c.

Fixpoint lower (text : string) : string :=
  match text with
  | EmptyString => EmptyString
  | String c text' => String (lower_ascii c) (lower text')
  end.

End Scenario.

(** * Properties *)

(** ** Reasoning about the monad *)

Lemma bind_Ok {A B} (m : M A) (f : A → M B) s a s' :
  m s = (Ok a, s') → (m ≫= f) s = f a s'.
Proof. intros H. unfold mbind, M_bind. by rewrite H. Qed.

Lemma bind_Raise {A B} (m : M A) (f : A → M B) s e s' :
  m s = (Raise e, s') → (m ≫= f) s = (Raise e, s').
Proof. intros H. unfold mbind, M_bind. by rewrite H. Qed.

Lemma try_except_rollback_Raise {A} (body : M A) s e s' :
  body s = (Raise e, s') →
  try_except body (λ e, db_rollback ;; raise e) s = (Raise e, rolled_back s').
Proof. intros H. unfold try_except. by rewrite H. Qed.

Lemma try_except_Ok {A} (body : M A) h s a s' :
  body s = (Ok a, s') → try_except body h s = (Ok a, s').
Proof. intros H. unfold try_except. by rewrite H. Qed.

(** ** Quantities per product and stock shifts *)

Lemma stock_shift_0 p : stock_shift 0 p p.
Proof. split; [lra | done]. Qed.

Lemma stock_shift_set p d :
  stock_shift d p
    (ProductModel.set_stock_quantity (ProductModel.stock_quantity p + d) p).
Proof. destruct p; split; simpl; [lra | done]. Qed.

Lemma stock_shift_trans a b c p p1 p2 :
  stock_shift a p p1 → stock_shift b p1 p2 → c == a + b → stock_shift c p p2.
Proof.
  intros [Ha Ea] [Hb Eb] Hc. split; [lra | congruence].
Qed.

Lemma stock_shift_proper a b p p' :
  a == b → stock_shift a p p' → stock_shift b p p'.
Proof. intros Hab [H E]. split; [lra | done]. Qed.

Lemma option_stock_shift_trans a b c (o o1 o2 : option ProductModel.t) :
  option_Forall2 (stock_shift a) o o1 →
  option_Forall2 (stock_shift b) o1 o2 →
  c == a + b →
  option_Forall2 (stock_shift c) o o2.
Proof.
  intros H1 H2 Hc. destruct H1; inversion H2; subst; constructor.
  eauto using stock_shift_trans.
Qed.

Lemma option_stock_shift_0 (o : option ProductModel.t) :
  option_Forall2 (stock_shift 0) o o.
Proof. destruct o; constructor. apply stock_shift_0. Qed.

(** One assignment to the stock of a loaded product, seen from any key. *)
Lemma lookup_set_stock (m : gmap N ProductModel.t) pid p d pid' :
  m !! pid = Some p →
  option_Forall2 (stock_shift (if decide (pid = pid') then d else 0))
    (m !! pid')
    (alter (ProductModel.set_stock_quantity
              (ProductModel.stock_quantity p + d)) pid m !! pid').
Proof.
  intros Hp. rewrite lookup_alter. destruct (decide (pid = pid')) as [<-|Hne].
  - rewrite Hp. simpl. constructor. apply stock_shift_set.
  - apply option_stock_shift_0.
Qed.


(** ** The loop of [create_order] *)

Lemma create_order_item_eq oid acc item s :
  OrderService.create_order_item oid acc item s =
  match product (working s) !! OrderItemCreate.product_id item with
  | None =>
      (Raise (ValueError (ProductNotFound (OrderItemCreate.product_id item))),
       s)
  | Some p =>
      if Qlt_le_dec (ProductModel.stock_quantity p)
                    (OrderItemCreate.quantity item)
      then (Raise (ValueError (InsufficientStockFor (ProductModel.name p))), s)
      else
        (Ok (acc + line_total_of item),
         {| committed := committed s;
            working :=
              {| product :=
                   alter (ProductModel.set_stock_quantity
                            (ProductModel.stock_quantity p
                             + - OrderItemCreate.quantity item))
                         (OrderItemCreate.product_id item)
                         (product (working s));
                 orders :=
                   alter (OrderModel.add_order_item (order_item_of oid item))
                         oid (orders (working s));
                 shipment := shipment (working s) |} |})
  end.
Proof.
  unfold OrderService.create_order_item, mbind, M_bind, db_get_product.
  destruct (product (working s) !! OrderItemCreate.product_id item) as [p|];
    [|done].
  destruct (Qlt_le_dec _ _); done.
Qed.

Lemma create_loop_Ok oid items : ∀ acc s sub s',
  for_each_acc items acc (OrderService.create_order_item oid) s = (Ok sub, s') →
  sub == acc + sum_line_totals items
  ∧ committed s' = committed s
  ∧ shipment (working s') = shipment (working s)
  ∧ (∀ k, orders (working s') !! k =
          if decide (oid = k)
          then with_more_items (map (order_item_of oid) items)
                 <$> orders (working s) !! k
          else orders (working s) !! k)
  ∧ (∀ pid, option_Forall2
              (stock_shift (- quantity_of pid (requested items)))
              (product (working s) !! pid) (product (working s') !! pid)).
Proof.
  induction items as [|item items IH]; intros acc s sub s' Hrun.
  - simpl in Hrun. injection Hrun as <- <-. repeat split; [simpl; lra | |].
    + intros k. case_decide; [|done].
      destruct (orders (working s) !! k) as [[]|]; simpl; [|done].
      unfold with_more_items. simpl. by rewrite app_nil_r.
    + intros pid. apply option_stock_shift_0.
  - simpl in Hrun. unfold mbind, M_bind in Hrun.
    rewrite create_order_item_eq in Hrun.
    destruct (product (working s) !! OrderItemCreate.product_id item)
      as [p|] eqn:Hp; [|done].
    destruct (Qlt_le_dec _ _) as [Hlt|Hle]; [done|].
    apply IH in Hrun as (Hsub & Hc & Hsh & Ho & Hst). simpl in *.
    repeat split; [unfold line_total_of in *; lra | done | done | |].
    + intros k. rewrite Ho, lookup_alter. case_decide; [subst k|done].
      destruct (orders (working s) !! oid) as [o|]; simpl; [|done].
      unfold with_more_items, OrderModel.add_order_item. simpl.
      by rewrite <- app_assoc.
    + intros pid.
      eapply option_stock_shift_trans;
        [exact (lookup_set_stock _ _ p (- OrderItemCreate.quantity item)
                  pid Hp)
        | apply Hst |].
      case_decide; lra.
Qed.

(** The loop never touches the committed rows, whatever its outcome. *)
Lemma create_loop_committed oid items : ∀ acc s r s',
  for_each_acc items acc (OrderService.create_order_item oid) s = (r, s') →
  committed s' = committed s.
Proof.
  induction items as [|item items IH]; intros acc s r s' Hrun.
  - simpl in Hrun. by injection Hrun as <- <-.
  - simpl in Hrun. unfold mbind, M_bind in Hrun.
    rewrite create_order_item_eq in Hrun.
    destruct (product (working s) !! OrderItemCreate.product_id item)
      as [p|]; [|by injection Hrun as <- <-].
    destruct (Qlt_le_dec _ _); [by injection Hrun as <- <-|].
    by apply IH in Hrun.
Qed.



(** ** [create_order] *)

(** The outcome of [create_order], step by step. *)
Lemma create_order_eq new_id order_data s :
  OrderService.create_order new_id order_data s =
  match orders (working s) !! new_id with
  | Some _ => (Raise IntegrityError, rolled_back s)
  | None =>
      match for_each_acc (OrderCreate.items order_data) 0
              (OrderService.create_order_item new_id)
              {| committed := committed s;
                 working :=
                   with_orders
                     (insert new_id (OrderService.new_order_row order_data))
                     (working s) |}
      with
      | (Raise e, s1) => (Raise e, rolled_back s1)
      | (Ok subtotal, s1) =>
          let w :=
            with_orders
              (alter (λ db_order,
                        OrderModel.set_total_amount
                          (subtotal + OrderModel.shipping_amount db_order
                           - OrderModel.discount_amount db_order) db_order)
                     new_id)
              (with_orders
                 (alter (OrderModel.set_subtotal_amount subtotal) new_id)
                 (working s1)) in
          (Ok (orders w !! new_id), {| committed := w; working := w |})
      end
  end.
Proof.
  unfold OrderService.create_order, try_except, mbind, M_bind, db_add_order.
  destruct (orders (working s) !! new_id); [done|].
  destruct (for_each_acc _ _ _ _) as [[subtotal|e] s1]; done.
Qed.

(** A failed [create_order] leaves the committed rows as they were and
    nothing pending in the session. *)
Lemma create_order_Raise new_id order_data s e s' :
  OrderService.create_order new_id order_data s = (Raise e, s') →
  s' = rolled_back s.
Proof.
  rewrite create_order_eq.
  destruct (orders (working s) !! new_id); [by intros [= <- <-]|].
  destruct (for_each_acc _ _ _ _) as [[subtotal|e1] s1] eqn:Hloop;
    [done|].
  intros [= <- <-]. apply create_loop_committed in Hloop.
  unfold rolled_back. by rewrite Hloop.
Qed.



(** ** Giving stock back: [cancel_order] and [delete_order] *)

Lemma restore_loop items : ∀ s,
  ∃ s',
    for_each items restore_item s = (Ok (), s')
    ∧ committed s' = committed s
    ∧ orders (working s') = orders (working s)
    ∧ shipment (working s') = shipment (working s)
    ∧ ∀ pid, option_Forall2
               (stock_shift (quantity_of pid (ordered items)))
               (product (working s) !! pid) (product (working s') !! pid).
Proof.
  induction items as [|item items IH]; intros s.
  - exists s. repeat split. intros pid. apply option_stock_shift_0.
  - simpl. unfold mbind at 1, M_bind at 1.
    unfold restore_item at 1, mbind, M_bind, db_get_product.
    destruct (product (working s) !! OrderItemModel.product_id item)
      as [p|] eqn:Hp; simpl.
    + destruct (IH {| committed := committed s;
                      working :=
                        with_product
                          (alter (ProductModel.set_stock_quantity
                                    (ProductModel.stock_quantity p
                                     + OrderItemModel.quantity item))
                             (OrderItemModel.product_id item))
                          (working s) |})
        as (s' & Hrun & Hc & Ho & Hsh & Hst).
      exists s'. simpl in *. repeat split; try done.
      intros pid.
      eapply option_stock_shift_trans;
        [exact (lookup_set_stock _ _ p (OrderItemModel.quantity item)
                  pid Hp)
        | apply Hst |].
      case_decide; lra.
    + destruct (IH s) as (s' & Hrun & Hc & Ho & Hsh & Hst).
      exists s'. repeat split; try done.
      intros pid. case_decide; [subst pid|apply Hst].
      specialize (Hst (OrderItemModel.product_id item)).
      rewrite Hp in Hst |- *. inversion Hst. constructor.
Qed.


Lemma cancel_order_Raise oid s o :
  orders (working s) !! oid = Some o →
  OrderModel.status o ∈ [CANCELLED; FULFILLED] →
  OrderService.cancel_order oid s
  = (Raise (ValueError (CannotCancel (OrderModel.status o))), s).
Proof.
  intros Ho Hst.
  unfold OrderService.cancel_order, OrderService.get_order, db_select_order,
    mbind, M_bind.
  rewrite Ho. by rewrite bool_decide_eq_true_2.
Qed.

Lemma cancel_order_run oid s o s1 :
  orders (working s) !! oid = Some o →
  OrderModel.status o ∉ [CANCELLED; FULFILLED] →
  for_each (OrderModel.order_items o) restore_item s = (Ok (), s1) →
  OrderService.cancel_order oid s
  = let w := with_orders (alter (OrderModel.set_status CANCELLED) oid)
               (working s1) in
    (Ok (orders w !! oid), {| committed := w; working := w |}).
Proof.
  intros Ho Hst Hrun.
  unfold OrderService.cancel_order, OrderService.get_order, db_select_order,
    mbind at 1, M_bind at 1.
  rewrite Ho. rewrite bool_decide_eq_false_2 by done.
  unfold try_except, mbind, M_bind. unfold restore_item in Hrun.
  unfold mbind, M_bind in Hrun. by rewrite Hrun.
Qed.

Lemma delete_order_Raise oid s o :
  orders (working s) !! oid = Some o →
  OrderModel.status o ≠ DRAFT →
  OrderService.delete_order oid s = (Raise (ValueError DeleteNotDraft), s).
Proof.
  intros Ho Hst.
  unfold OrderService.delete_order, OrderService.get_order, db_select_order,
    mbind, M_bind.
  rewrite Ho. by rewrite bool_decide_eq_true_2.
Qed.

Lemma delete_order_run oid s o s1 :
  orders (working s) !! oid = Some o →
  OrderModel.status o = DRAFT →
  for_each (OrderModel.order_items o) restore_item s = (Ok (), s1) →
  OrderService.delete_order oid s
  = let w := with_shipment
               (filter (λ kv, ShipmentModel.order_id kv.2 ≠ oid))
               (with_orders (delete oid) (working s1)) in
    (Ok true, {| committed := w; working := w |}).
Proof.
  intros Ho Hst Hrun.
  unfold OrderService.delete_order, OrderService.get_order, db_select_order,
    mbind at 1, M_bind at 1.
  rewrite Ho. rewrite bool_decide_eq_false_2 by (by intros ?).
  unfold mbind, M_bind. unfold restore_item in Hrun.
  unfold mbind, M_bind in Hrun. by rewrite Hrun.
Qed.

Lemma cancellable_iff (st : OrderStatus) :
  st ∈ [CANCELLED; FULFILLED] ↔ st = CANCELLED ∨ st = FULFILLED.
Proof. rewrite !elem_of_cons, elem_of_nil. tauto. Qed.

(** What a successful [create_order] leaves. *)
Lemma create_order_Ok new_id order_data s r s' :
  OrderService.create_order new_id order_data s = (Ok r, s') →
  ∃ subtotal,
    let o :=
      OrderModel.set_total_amount
        (subtotal + OrderCreate.shipping_amount order_data
         - OrderCreate.discount_amount order_data)
        (OrderModel.set_subtotal_amount subtotal
           (with_more_items
              (map (order_item_of new_id) (OrderCreate.items order_data))
              (OrderService.new_order_row order_data))) in
    subtotal == sum_line_totals (OrderCreate.items order_data)
    ∧ orders (working s) !! new_id = None
    ∧ r = Some o
    ∧ working s' = committed s'
    ∧ orders (committed s') = <[new_id := o]> (orders (working s))
    ∧ shipment (committed s') = shipment (working s)
    ∧ ∀ pid, option_Forall2
               (stock_shift
                  (- quantity_of pid (requested (OrderCreate.items order_data))))
               (product (working s) !! pid) (product (committed s') !! pid).
Proof.
  rewrite create_order_eq.
  destruct (orders (working s) !! new_id) eqn:Hfresh; [done|].
  destruct (for_each_acc _ _ _ _) as [[subtotal|e1] s1] eqn:Hloop; [|done].
  apply create_loop_Ok in Hloop as (Hsub & _ & Hsh & Ho & Hst).
  simpl in *. intros [= <- <-]. simpl. exists subtotal.
  assert (orders (working s1) !! new_id
          = Some (with_more_items
                    (map (order_item_of new_id) (OrderCreate.items order_data))
                    (OrderService.new_order_row order_data))) as Hnew.
  { rewrite Ho, decide_True by done. by rewrite lookup_insert_eq. }
  repeat split; try done.
  - lra.
  - by rewrite !lookup_alter_eq, Hnew.
  - apply map_eq. intros k. rewrite !lookup_alter.
    destruct (decide (new_id = k)) as [<-|Hne].
    + rewrite Hnew, lookup_insert_eq. by case_decide.
    + rewrite Ho, decide_False by done. simpl.
      by rewrite !lookup_insert_ne.
Qed.


(** C5: [cancel_order] on a CANCELLED or FULFILLED order raises and leaves
    the session, hence the status and every stock, untouched; on an order
    in any other status it commits the order as CANCELLED and every
    product with the quantities of the order's items added to its stock. *)
Theorem cancel_order_status_legality oid s o :
  orders (working s) !! oid = Some o →
  (OrderModel.status o = CANCELLED ∨ OrderModel.status o = FULFILLED →
   OrderService.cancel_order oid s
   = (Raise (ValueError (CannotCancel (OrderModel.status o))), s))
  ∧ (OrderModel.status o ≠ CANCELLED ∧ OrderModel.status o ≠ FULFILLED →
     ∃ o' s',
       OrderService.cancel_order oid s = (Ok (Some o'), s')
       ∧ o' = OrderModel.set_status CANCELLED o
       ∧ orders (committed s') !! oid = Some o'
       ∧ (∀ k, k ≠ oid → orders (committed s') !! k = orders (working s) !! k)
       ∧ ∀ pid, option_Forall2
                  (stock_shift
                     (quantity_of pid (ordered (OrderModel.order_items o))))
                  (product (working s) !! pid)
                  (product (committed s') !! pid)).
Proof.
  intros Ho. split.
  - intros Hst. apply cancel_order_Raise; [done|]. by apply cancellable_iff.
  - intros [Hc Hf].
    destruct (restore_loop (OrderModel.order_items o) s)
      as (s1 & Hrun & _ & Hord & _ & Hup).
    eexists _, _. split.
    { rewrite (cancel_order_run _ _ o s1 Ho)
        by (done || by rewrite cancellable_iff; intros [|]).
      simpl. by rewrite lookup_alter_eq, Hord, Ho. }
    simpl. repeat split; [by rewrite lookup_alter_eq, Hord, Ho | | done].
    intros k Hk. by rewrite lookup_alter_ne, Hord.
Qed.

(** C6: [delete_order] raises on an order that is not DRAFT and leaves the
    session untouched; on a DRAFT order it returns [True], the order is
    gone from the committed rows, and the products are committed exactly
    as [cancel_order] would have committed them: each with the quantities
    of the order's items added to its stock. *)
Theorem delete_order_only_draft oid s o :
  orders (working s) !! oid = Some o →
  (OrderModel.status o ≠ DRAFT →
   OrderService.delete_order oid s
   = (Raise (ValueError DeleteNotDraft), s))
  ∧ (OrderModel.status o = DRAFT →
     ∃ s',
       OrderService.delete_order oid s = (Ok true, s')
       ∧ orders (committed s') !! oid = None
       ∧ product (committed s')
         = product (committed (OrderService.cancel_order oid s).2)
       ∧ ∀ pid, option_Forall2
                  (stock_shift
                     (quantity_of pid (ordered (OrderModel.order_items o))))
                  (product (working s) !! pid)
                  (product (committed s') !! pid)).
Proof.
  intros Ho. split.
  - by apply delete_order_Raise.
  - intros Hst.
    destruct (restore_loop (OrderModel.order_items o) s)
      as (s1 & Hrun & _ & Hord & _ & Hup).
    eexists. split; [by apply (delete_order_run _ _ o s1)|].
    simpl. repeat split; [apply lookup_delete_eq | | done].
    rewrite (cancel_order_run _ _ o s1 Ho); [done | | done].
    rewrite cancellable_iff, Hst. by intros [|].
Qed.

(** ** Payments *)

Lemma create_paypal_payment_eq (paypal_provider : BasePaymentProvider)
    order_id return_url cancel_url s :
    PaymentService.create_paypal_payment paypal_provider order_id
      return_url cancel_url s =
    match orders (working s) !! order_id with
    | None => (Ok (Failure OrderNotFound), s)
    | Some o =>
        if bool_decide (OrderModel.status o ∉ [DRAFT; PENDING_PAYMENT])
        then (Ok (Failure (CannotBePaid (OrderModel.status o))), s)
        else if bool_decide (OrderModel.payment_status o = CAPTURED)
        then (Ok (Failure AlreadyPaid), s)
        else
          match provider_create_call paypal_provider order_id o
                  return_url cancel_url with
          | ProviderFailure error => (Ok (Failure (CreationFailed error)), s)
          | ProviderSuccess payment =>
              let w :=
                with_orders
                  (alter (awaiting_payment (created_payment_id payment))
                     order_id) (working s) in
              (Ok (Success
                     {| pc_order_id := uuid_str order_id;
                        pc_payment_id := created_payment_id payment;
                        pc_approval_url := created_approval_url payment;
                        pc_amount := OrderModel.total_amount o;
                        pc_currency := OrderModel.currency o |}),
               {| committed := w; working := w |})
          end
    end.
  Proof.
    unfold PaymentService.create_paypal_payment, try_except, mbind, M_bind,
      db_select_order, provider_create_call.
    destruct (orders (working s) !! order_id) as [o|]; [|done].
    repeat case_bool_decide; try done.
    by destruct (create_payment _ _ _ _ _ _).
  Qed.

(** C7: [create_paypal_payment] answers "order not found" for a missing
    order, "cannot be paid" unless the status is DRAFT or PENDING_PAYMENT,
    "already paid" when the payment status is CAPTURED, and the provider's
    error when the provider fails; in all four cases the session, hence
    every field of the order, is untouched.  When the provider succeeds the
    order is committed with provider PAYPAL, the provider's payment id as
    reference, payment status PENDING and status PENDING_PAYMENT, and no
    other column or row changes. *)
Theorem create_paypal_payment_guards (paypal_provider : BasePaymentProvider)
    order_id return_url cancel_url s :
  let run := PaymentService.create_paypal_payment paypal_provider order_id
               return_url cancel_url s in
  (orders (working s) !! order_id = None →
   run = (Ok (Failure OrderNotFound), s))
  ∧ ∀ o, orders (working s) !! order_id = Some o →
      (OrderModel.status o ≠ DRAFT ∧ OrderModel.status o ≠ PENDING_PAYMENT →
       run = (Ok (Failure (CannotBePaid (OrderModel.status o))), s))
      ∧ (OrderModel.status o = DRAFT ∨ OrderModel.status o = PENDING_PAYMENT →
         (OrderModel.payment_status o = CAPTURED →
          run = (Ok (Failure AlreadyPaid), s))
         ∧ (OrderModel.payment_status o ≠ CAPTURED →
            (∀ error,
               provider_create_call paypal_provider order_id o
                 return_url cancel_url = ProviderFailure error →
               run = (Ok (Failure (CreationFailed error)), s))
            ∧ (∀ payment,
                 provider_create_call paypal_provider order_id o
                   return_url cancel_url = ProviderSuccess payment →
                 ∃ answer s',
                   run = (Ok (Success answer), s')
                   ∧ pc_payment_id answer = created_payment_id payment
                   ∧ orders (committed s') !! order_id
                     = Some (awaiting_payment (created_payment_id payment) o)
                   ∧ (∀ k, k ≠ order_id →
                        orders (committed s') !! k = orders (working s) !! k)
                   ∧ product (committed s') = product (working s)
                   ∧ shipment (committed s') = shipment (working s)))).
Proof.
  intros run. subst run. rewrite create_paypal_payment_eq. split.
  { by intros ->. }
  intros o Ho. rewrite Ho. split.
  - intros [Hd Hp]. rewrite bool_decide_eq_true_2; [done|].
    rewrite !not_elem_of_cons.
    repeat split; [done | done | apply not_elem_of_nil].
  - intros Hst. rewrite bool_decide_eq_false_2.
    2: { rewrite !not_elem_of_cons. intros (Hd & Hp & _). by destruct Hst. }
    split.
    + intros Hps. by rewrite bool_decide_eq_true_2.
    + intros Hps. rewrite bool_decide_eq_false_2 by done. split.
      * by intros error ->.
      * intros payment ->. eexists _, _. split; [done|]. simpl.
        repeat split; [by rewrite lookup_alter_eq, Ho|].
        intros k Hk. by rewrite lookup_alter_ne.
Qed.

Lemma refund_paypal_payment_eq (paypal_provider : BasePaymentProvider)
    order_id amount s :
  PaymentService.refund_paypal_payment paypal_provider order_id amount s =
  match orders (working s) !! order_id with
  | None => (Ok (Failure OrderNotFound), s)
  | Some o =>
      if bool_decide (OrderModel.payment_provider o ≠ Some "PAYPAL")
      then (Ok (Failure NotPaidWithPayPal), s)
      else if bool_decide (OrderModel.payment_status o ≠ CAPTURED)
      then (Ok (Failure NotCaptured), s)
      else if negb (opt_str_truthy (OrderModel.payment_reference o))
      then (Ok (Failure NoTransactionReference), s)
      else
        match refund_payment (default "" (OrderModel.payment_reference o))
                amount with
        | ProviderFailure error => (Ok (Failure (RefundFailed error)), s)
        | ProviderSuccess refund =>
            let w :=
              with_orders
                (alter (OrderModel.set_payment_status
                          (status_after_refund amount
                             (OrderModel.total_amount o)))
                   order_id) (working s) in
            (Ok (Success
                   {| pr_order_id := uuid_str order_id;
                      pr_refund_id := refund_id refund;
                      pr_refund_state := refund_state refund;
                      pr_refund_amount :=
                        (if opt_decimal_truthy amount then default 0 amount
                         else OrderModel.total_amount o);
                      pr_currency := OrderModel.currency o |}),
             {| committed := w; working := w |})
        end
  end.
Proof.
  unfold PaymentService.refund_paypal_payment, try_except, mbind, M_bind,
    db_select_order.
  destruct (orders (working s) !! order_id) as [o|]; [|done].
  repeat case_bool_decide; try done.
  destruct (negb _); [done|].
  by destruct (refund_payment _ _).
Qed.


Lemma status_after_refund_partial a total :
  ¬ a == 0 → a < total → status_after_refund (Some a) total = CAPTURED.
Proof.
  unfold status_after_refund, opt_decimal_truthy, decimal_truthy, decimal_lt.
  simpl. intros Hnz Hlt.
  destruct (Qeq_bool a 0) eqn:Hz; [by apply Qeq_bool_iff in Hz|].
  destruct (Qlt_le_dec a total); [done|lra].
Qed.


(** ** The stock invariant *)

Lemma update_stock_eq product_id quantity_change s :
  ProductService.update_stock product_id quantity_change s =
  match product (working s) !! product_id with
  | None => (Ok None, s)
  | Some p =>
      if Qlt_le_dec (ProductModel.stock_quantity p + quantity_change) 0
      then (Raise (ValueError InsufficientStock), s)
      else
        let w :=
          with_product
            (alter (ProductModel.set_stock_quantity
                      (ProductModel.stock_quantity p + quantity_change))
               product_id) (working s) in
        (Ok (product w !! product_id), {| committed := w; working := w |})
  end.
Proof.
  unfold ProductService.update_stock, ProductService.get_product,
    db_get_product, mbind, M_bind.
  destruct (product (working s) !! product_id); [|done].
  by destruct (Qlt_le_dec _ _).
Qed.

Lemma stock_nonneg_shift (delta : UUID → Decimal)
    (m m' : gmap N ProductModel.t) :
  (∀ pid, option_Forall2 (stock_shift (delta pid)) (m !! pid) (m' !! pid)) →
  (∀ pid, 0 <= delta pid) →
  stock_nonneg m → stock_nonneg m'.
Proof.
  intros Hshift Hdelta Hm pid p' Hp'.
  specialize (Hshift pid). rewrite Hp' in Hshift.
  inversion Hshift as [p ? [Hs _] Hp |]; subst.
  symmetry in Hp. apply Hm in Hp. specialize (Hdelta pid). lra.
Qed.

Lemma quantity_of_nonneg pid items :
  Forall (λ i, 0 < OrderItemModel.quantity i) items →
  0 <= quantity_of pid (ordered items).
Proof.
  induction 1 as [|i items Hi _ IH]; simpl; [lra|].
  case_decide; lra.
Qed.

Lemma create_loop_nonneg oid items : ∀ acc s sub s',
  for_each_acc items acc (OrderService.create_order_item oid) s = (Ok sub, s') →
  stock_nonneg (product (working s)) →
  stock_nonneg (product (working s')).
Proof.
  induction items as [|item items IH]; intros acc s sub s' Hrun Hm.
  - simpl in Hrun. by injection Hrun as <- <-.
  - simpl in Hrun. unfold mbind, M_bind in Hrun.
    rewrite create_order_item_eq in Hrun.
    destruct (product (working s) !! OrderItemCreate.product_id item)
      as [p|] eqn:Hp; [|done].
    destruct (Qlt_le_dec _ _) as [Hlt|Hle]; [done|].
    apply IH in Hrun; [done|]. simpl.
    intros pid p'. rewrite lookup_alter. case_decide; [subst pid|apply Hm].
    rewrite Hp. intros [= <-]. destruct p; simpl in *. lra.
Qed.

Lemma stored_items_positive oid items :
  Forall OrderItemCreate.valid items →
  Forall (λ i, 0 < OrderItemModel.quantity i) (map (order_item_of oid) items).
Proof.
  intros H. apply Forall_map. eapply Forall_impl; [exact H|].
  by intros i [Hq _].
Qed.

Lemma rolled_back_ok s : session_ok s → session_ok (rolled_back s).
Proof. by intros [Hc _]. Qed.

Lemma run_op_ok op s : session_ok s → valid_op op → session_ok (run_op op s).
Proof.
  intros [Hc [Hstock Hitems]] Hvalid.
  destruct op as [pid d | new_id od | oid | oid]; simpl.
  - (* update_stock *)
    rewrite update_stock_eq.
    destruct (product (working s) !! pid) as [p|] eqn:Hp; [|done].
    destruct (Qlt_le_dec _ _) as [Hlt|Hle]; [done|].
    assert (db_ok (with_product
                     (alter (ProductModel.set_stock_quantity
                               (ProductModel.stock_quantity p + d)) pid)
                     (working s))) as Hw; [|done].
    split; [|done]. simpl.
    intros pid' p'. rewrite lookup_alter. case_decide; [subst pid'|apply Hstock].
    rewrite Hp. by intros [= <-].
  - (* create_order *)
    destruct (OrderService.create_order new_id od s) as [[r|e] s'] eqn:Hrun.
    + pose proof Hrun as Hloop. rewrite create_order_eq in Hloop.
      destruct (orders (working s) !! new_id); [done|].
      destruct (for_each_acc _ _ _ _) as [[subtotal|e1] s1] eqn:Hfor; [|done].
      apply create_loop_nonneg in Hfor; [|done].
      injection Hloop as _ Hs'.
      apply create_order_Ok in Hrun
        as (sub & _ & _ & _ & Hw & Hord & _ & _).
      assert (db_ok (committed s')) as Hok.
      { split.
        - by rewrite <- Hs'.
        - rewrite Hord. intros k o. rewrite lookup_insert.
          case_decide; [|apply Hitems]. intros [= <-]. simpl.
          apply stored_items_positive, Hvalid. }
      simpl. split; [done | by rewrite Hw].
    + apply create_order_Raise in Hrun as ->. simpl.
      by apply rolled_back_ok.
  - (* cancel_order *)
    destruct (orders (working s) !! oid) as [o|] eqn:Ho.
    2: { unfold OrderService.cancel_order, OrderService.get_order,
           db_select_order, mbind, M_bind. by rewrite Ho. }
    destruct (decide (OrderModel.status o ∈ [CANCELLED; FULFILLED]))
      as [Hin|Hout].
    { by rewrite (cancel_order_Raise _ _ o). }
    destruct (restore_loop (OrderModel.order_items o) s)
      as (s1 & Hrun & _ & Hord & _ & Hup).
    rewrite (cancel_order_run _ _ o s1) by done. simpl.
    assert (db_ok (with_orders (alter (OrderModel.set_status CANCELLED) oid)
                     (working s1))) as Hw; [|done].
    split; simpl.
    + eapply stock_nonneg_shift; [exact Hup | | done].
      intros pid. apply quantity_of_nonneg. by apply (Hitems oid).
    + rewrite Hord. intros k o'. rewrite lookup_alter.
      case_decide; [subst k|apply Hitems].
      rewrite Ho. intros [= <-]. simpl. by apply (Hitems oid).
  - (* delete_order *)
    destruct (orders (working s) !! oid) as [o|] eqn:Ho.
    2: { unfold OrderService.delete_order, OrderService.get_order,
           db_select_order, mbind, M_bind. by rewrite Ho. }
    destruct (decide (OrderModel.status o = DRAFT)) as [Hd|Hnd].
    2: { by rewrite (delete_order_Raise _ _ o). }
    destruct (restore_loop (OrderModel.order_items o) s)
      as (s1 & Hrun & _ & Hord & _ & Hup).
    rewrite (delete_order_run _ _ o s1) by done. simpl.
    assert (db_ok (with_shipment
                     (filter (λ kv, ShipmentModel.order_id kv.2 ≠ oid))
                     (with_orders (delete oid) (working s1)))) as Hw; [|done].
    split; simpl.
    + eapply stock_nonneg_shift; [exact Hup | | done].
      intros pid. apply quantity_of_nonneg. by apply (Hitems oid).
    + rewrite Hord. intros k o'. rewrite lookup_delete.
      case_decide; [done|apply Hitems].
Qed.

(** C9: starting from a session whose stocks are non-negative and whose
    order items have positive quantities, every sequence of [update_stock],
    [create_order], [cancel_order] and [delete_order] calls leaves every
    committed stock non-negative; and [update_stock] raises "Insufficient
    stock", changing nothing, when the change would take a stock below
    zero. *)
Theorem stock_never_negative ops s :
  session_ok s →
  Forall valid_op ops →
  (∀ pid p, product (committed (run_ops ops s)) !! pid = Some p →
            0 <= ProductModel.stock_quantity p)
  ∧ (∀ pid d p, product (working s) !! pid = Some p →
       ProductModel.stock_quantity p + d < 0 →
       ProductService.update_stock pid d s
       = (Raise (ValueError InsufficientStock), s)).
Proof.
  intros Hs Hops. split.
  - assert (session_ok (run_ops ops s)) as [[H _] _]; [|exact H].
    revert s Hs. induction Hops as [|op ops Hop _ IH]; intros s Hs; [done|].
    simpl. apply IH. by apply run_op_ok.
  - intros pid d p Hp Hneg. rewrite update_stock_eq, Hp.
    destruct (Qlt_le_dec _ _); [done|lra].
Qed.

(** ** Shipments *)

Lemma update_shipment_status_eq now shipment_id status update_timestamps s :
  ShipmentService.update_shipment_status now shipment_id status
    update_timestamps s =
  match shipment (working s) !! shipment_id with
  | None => (Ok None, s)
  | Some sh =>
      let w :=
        with_shipment
          (alter (apply_update_data
                    (status_update_data now status update_timestamps sh))
             shipment_id) (working s) in
      (Ok (shipment w !! shipment_id), {| committed := w; working := w |})
  end.
Proof.
  unfold ShipmentService.update_shipment_status,
    ShipmentService.get_shipment, db_select_shipment, mbind, M_bind.
  destruct (shipment (working s) !! shipment_id) as [sh|]; [|done].
  unfold status_update_data.
  destruct update_timestamps; [|done].
  destruct (bool_decide (status = SHIPPED) && _); [done|].
  by destruct (bool_decide (status = DELIVERED) && _).
Qed.

Lemma update_shipment_status_Ok now shipment_id status update_timestamps s sh :
  shipment (working s) !! shipment_id = Some sh →
  ∃ s',
    ShipmentService.update_shipment_status now shipment_id status
      update_timestamps s
    = (Ok (Some (pushed now status update_timestamps sh)), s')
    ∧ working s' = committed s'
    ∧ shipment (committed s') !! shipment_id
      = Some (pushed now status update_timestamps sh).
Proof.
  intros Hsh. rewrite update_shipment_status_eq, Hsh. simpl.
  rewrite lookup_alter_eq, Hsh. simpl.
  eexists. split; [done|]. simpl. split; [done|].
  by rewrite lookup_alter_eq, Hsh.
Qed.

Lemma pushed_status now status update_timestamps sh :
  ShipmentModel.status (pushed now status update_timestamps sh) = status.
Proof.
  unfold pushed, status_update_data.
  destruct sh as [? ? ? ? [?|] [?|]], update_timestamps, status; reflexivity.
Qed.

Lemma pushed_shipped_at now status update_timestamps sh :
  ShipmentModel.shipped_at (pushed now status update_timestamps sh)
  = if update_timestamps && bool_decide (status = SHIPPED)
    then match ShipmentModel.shipped_at sh with
         | Some t => Some t
         | None => Some now
         end
    else ShipmentModel.shipped_at sh.
Proof.
  unfold pushed, status_update_data.
  destruct sh as [? ? ? ? [?|] [?|]], update_timestamps, status; reflexivity.
Qed.

Lemma pushed_delivered_at now status update_timestamps sh :
  ShipmentModel.delivered_at (pushed now status update_timestamps sh)
  = if update_timestamps && bool_decide (status = DELIVERED)
    then match ShipmentModel.delivered_at sh with
         | Some t => Some t
         | None => Some now
         end
    else ShipmentModel.delivered_at sh.
Proof.
  unfold pushed, status_update_data.
  destruct sh as [? ? ? ? [?|] [?|]], update_timestamps, status; reflexivity.
Qed.

(** C10: [update_shipment_status] commits the new status; with timestamp
    updates on (the default) a push of SHIPPED puts the current time in
    [shipped_at] when it is empty and a push of DELIVERED puts it in
    [delivered_at] when it is empty; a timestamp already set is never
    changed, and nothing else writes one; a second push of the same status,
    at whatever time, keeps every timestamp the first push left set, and
    after a first push with timestamp updates on it changes neither. *)
Theorem update_shipment_status_set_once now shipment_id status
    update_timestamps s sh :
  shipment (working s) !! shipment_id = Some sh →
  ∃ sh' s',
    ShipmentService.update_shipment_status now shipment_id status
      update_timestamps s
    = (Ok (Some sh'), s')
    ∧ shipment (committed s') !! shipment_id = Some sh'
    ∧ ShipmentModel.status sh' = status
    ∧ (update_timestamps = true → status = SHIPPED →
       ShipmentModel.shipped_at sh = None →
       ShipmentModel.shipped_at sh' = Some now)
    ∧ (update_timestamps = true → status = DELIVERED →
       ShipmentModel.delivered_at sh = None →
       ShipmentModel.delivered_at sh' = Some now)
    ∧ (∀ t, ShipmentModel.shipped_at sh = Some t →
            ShipmentModel.shipped_at sh' = Some t)
    ∧ (∀ t, ShipmentModel.delivered_at sh = Some t →
            ShipmentModel.delivered_at sh' = Some t)
    ∧ (status ≠ SHIPPED ∨ update_timestamps = false →
       ShipmentModel.shipped_at sh' = ShipmentModel.shipped_at sh)
    ∧ (status ≠ DELIVERED ∨ update_timestamps = false →
       ShipmentModel.delivered_at sh' = ShipmentModel.delivered_at sh)
    ∧ ∀ later update_timestamps', ∃ sh'' s'',
        ShipmentService.update_shipment_status later shipment_id status
          update_timestamps' s'
        = (Ok (Some sh''), s'')
        ∧ shipment (committed s'') !! shipment_id = Some sh''
        ∧ (∀ t, ShipmentModel.shipped_at sh' = Some t →
                ShipmentModel.shipped_at sh'' = Some t)
        ∧ (∀ t, ShipmentModel.delivered_at sh' = Some t →
                ShipmentModel.delivered_at sh'' = Some t)
        ∧ (update_timestamps = true →
           ShipmentModel.shipped_at sh'' = ShipmentModel.shipped_at sh'
           ∧ ShipmentModel.delivered_at sh''
             = ShipmentModel.delivered_at sh').
Proof.
  intros Hsh.
  destruct (update_shipment_status_Ok now shipment_id status
              update_timestamps s sh Hsh)
    as (s' & Hrun & Hw & Hsh').
  exists (pushed now status update_timestamps sh), s'.
  split; [done|]. split; [done|]. split; [apply pushed_status|].
  repeat split.
  - intros -> -> Hnone. by rewrite pushed_shipped_at, Hnone.
  - intros -> -> Hnone. by rewrite pushed_delivered_at, Hnone.
  - intros t Ht. rewrite pushed_shipped_at, Ht. by destruct (_ && _).
  - intros t Ht. rewrite pushed_delivered_at, Ht. by destruct (_ && _).
  - intros Hoff. rewrite pushed_shipped_at.
    destruct Hoff as [Hne| ->]; [|done].
    by rewrite bool_decide_eq_false_2, andb_false_r.
  - intros Hoff. rewrite pushed_delivered_at.
    destruct Hoff as [Hne| ->]; [|done].
    by rewrite bool_decide_eq_false_2, andb_false_r.
  - intros later flag.
    assert (shipment (working s') !! shipment_id
            = Some (pushed now status update_timestamps sh)) as Hw'
      by (by rewrite Hw).
    destruct (update_shipment_status_Ok later shipment_id status flag s' _ Hw')
      as (s'' & Hrun' & _ & Hsh'').
    eexists _, s''. split; [done|]. split; [done|].
    split; [|split].
    + intros t Ht. rewrite pushed_shipped_at, Ht. by destruct (_ && _).
    + intros t Ht. rewrite pushed_delivered_at, Ht. by destruct (_ && _).
    + intros ->. rewrite !pushed_shipped_at, !pushed_delivered_at.
      destruct sh as [? ? ? ? [?|] [?|]], flag, status; split; reflexivity.
Qed.



(** C3: [create_order] looks the product up "to verify price and stock" but
    compares only the stock: on a request of 2 units at 1.00 of a product
    priced 10.00 it commits a line whose [unit_price] is the 1.00 of the
    request, not the 10.00 of the product. *)
Example create_order_stores_request_price :
  ∃ o line p,
    (OrderService.create_order 100 (Sample.request 2 1)
       (new_session (Sample.shop 5))).1 = Ok (Some o)
    ∧ OrderModel.order_items o = [line]
    ∧ product (Sample.shop 5) !! OrderItemModel.product_id line = Some p
    ∧ ProductModel.price_per_unit p == 10
    ∧ OrderItemModel.unit_price line == 1
    ∧ ¬ OrderItemModel.unit_price line == ProductModel.price_per_unit p.
Proof.
  eexists _, _, _. split; [vm_compute; reflexivity|].
  split; [reflexivity|]. split; [vm_compute; reflexivity|].
  simpl. repeat split; try reflexivity. intros H. discriminate H.
Qed.


(** Cancelling the placed order succeeds; cancelling it again is refused. *)
Lemma cancel_order_status_legality_witness :
  (∃ o o' s',
     orders (working Sample.placed) !! 100%N = Some o
     ∧ OrderService.cancel_order 100 Sample.placed = (Ok (Some o'), s')
     ∧ o' = OrderModel.set_status CANCELLED o)
  ∧ (∃ o,
       orders (working Sample.cancelled) !! 100%N = Some o
       ∧ OrderService.cancel_order 100 Sample.cancelled
         = (Raise (ValueError (CannotCancel CANCELLED)), Sample.cancelled)).
Proof.
  split.
  - eassert (orders (working Sample.placed) !! 100%N = Some _) as Ho
      by (vm_compute; reflexivity).
    destruct (cancel_order_status_legality _ _ _ Ho) as [_ Hok].
    destruct Hok as (o' & s' & Hrun & Ho' & _); [by split|].
    eexists _, o', s'. split; [exact Ho|]. by split.
  - eassert (orders (working Sample.cancelled) !! 100%N = Some _) as Ho
      by (vm_compute; reflexivity).
    destruct (cancel_order_status_legality _ _ _ Ho) as [Hraise _].
    eexists. split; [exact Ho|]. apply Hraise. by left.
Defined.

(** Deleting the placed draft gives its 3 units back; a cancelled order
    cannot be deleted. *)
Lemma delete_order_only_draft_witness :
  (∃ o s' p,
     orders (working Sample.placed) !! 100%N = Some o
     ∧ OrderService.delete_order 100 Sample.placed = (Ok true, s')
     ∧ orders (committed s') !! 100%N = None
     ∧ product (committed s') !! 7%N = Some p
     ∧ ProductModel.stock_quantity p == 5)
  ∧ (∃ o,
       orders (working Sample.cancelled) !! 100%N = Some o
       ∧ OrderService.delete_order 100 Sample.cancelled
         = (Raise (ValueError DeleteNotDraft), Sample.cancelled)).
Proof.
  split.
  - eassert (orders (working Sample.placed) !! 100%N = Some _) as Ho
      by (vm_compute; reflexivity).
    destruct (delete_order_only_draft _ _ _ Ho) as [_ Hok].
    destruct Hok as (s' & Hrun & Hgone & _ & Hstock); [done|].
    specialize (Hstock 7%N).
    change (product (working Sample.placed) !! 7%N)
      with (Some (Sample.tomato (5 + - 3))) in Hstock.
    inversion Hstock as [p p' [Hq _] Hp Hp'|].
    eexists _, s', p'. split; [exact Ho|]. split; [exact Hrun|].
    split; [exact Hgone|]. split; [done|].
    simpl in Hq. rewrite Hq. reflexivity.
  - eassert (orders (working Sample.cancelled) !! 100%N = Some _) as Ho
      by (vm_compute; reflexivity).
    destruct (delete_order_only_draft _ _ _ Ho) as [Hraise _].
    eexists. split; [exact Ho|]. by apply Hraise.
Defined.

(** Opening a payment for the placed draft; a paid order is refused. *)
Lemma create_paypal_payment_guards_witness :
  (∃ answer s' o',
     PaymentService.create_paypal_payment Sample.approving_provider 100
       None None Sample.placed = (Ok (Success answer), s')
     ∧ orders (committed s') !! 100%N = Some o'
     ∧ OrderModel.status o' = PENDING_PAYMENT
     ∧ OrderModel.payment_status o' = PENDING
     ∧ OrderModel.payment_provider o' = Some "PAYPAL"
     ∧ OrderModel.payment_reference o' = Some "PAY-1")
  ∧ PaymentService.create_paypal_payment Sample.approving_provider 100
      None None Sample.paid
    = (Ok (Failure (CannotBePaid PAID)), Sample.paid)
  ∧ PaymentService.create_paypal_payment Sample.approving_provider 101
      None None Sample.paid
    = (Ok (Failure OrderNotFound), Sample.paid).
Proof.
  split; [|split].
  - eassert (orders (working Sample.placed) !! 100%N = Some _) as Ho
      by (vm_compute; reflexivity).
    destruct (create_paypal_payment_guards Sample.approving_provider 100
                None None Sample.placed) as [_ Hfound].
    destruct (Hfound _ Ho) as [_ Hpayable].
    destruct Hpayable as [_ Hopen]; [by left|].
    destruct Hopen as [_ Hsuccess]; [done|].
    destruct (Hsuccess _ eq_refl) as (answer & s' & Hrun & _ & Ho' & _).
    eexists answer, s', _. split; [exact Hrun|]. split; [exact Ho'|]. done.
  - destruct (create_paypal_payment_guards Sample.approving_provider 100
                None None Sample.paid) as [_ Hfound].
    destruct (Hfound Sample.paid_order eq_refl) as [Hrefused _].
    by apply Hrefused.
  - destruct (create_paypal_payment_guards Sample.approving_provider 101
                None None Sample.paid) as [Hmissing _].
    by apply Hmissing.
Defined.



(** Order, manual correction, cancellation: the stock stays at or above 0;
    a correction below zero is refused. *)
Lemma stock_never_negative_witness :
  (∀ pid p,
     product
       (committed
          (run_ops [CreateOrder 100 (Sample.request 3 10);
                    UpdateStock 7 (-2);
                    CancelOrder 100]
             (new_session (Sample.shop 5)))) !! pid = Some p →
     0 <= ProductModel.stock_quantity p)
  ∧ ProductService.update_stock 7 (-6) (new_session (Sample.shop 5))
    = (Raise (ValueError InsufficientStock), new_session (Sample.shop 5)).
Proof.
  assert (session_ok (new_session (Sample.shop 5))) as Hok.
  { assert (db_ok (Sample.shop 5)) as H; [|by split].
    split.
    - intros pid p Hp. simpl in Hp.
      apply lookup_singleton_Some in Hp as [_ <-]. simpl. lra.
    - intros oid o Ho. simpl in Ho. by rewrite lookup_empty in Ho. }
  assert (Forall valid_op [CreateOrder 100 (Sample.request 3 10);
                           UpdateStock 7 (-2); CancelOrder 100]) as Hops.
  { repeat constructor; simpl; lra. }
  destruct (stock_never_negative _ _ Hok Hops) as [Hstock Hrefuse].
  split; [exact Hstock|].
  apply (Hrefuse 7%N (-6) (Sample.tomato 5)); [reflexivity|]. simpl. lra.
Defined.

(** Shipping the packed shipment at time 1000, then pushing SHIPPED again
    at time 2000. *)
Lemma update_shipment_status_set_once_witness :
  ∃ sh' s' sh'' s'',
    ShipmentService.update_shipment_status 1000 5 SHIPPED true Sample.packed
    = (Ok (Some sh'), s')
    ∧ ShipmentModel.shipped_at sh' = Some 1000%Z
    ∧ ShipmentService.update_shipment_status 2000 5 SHIPPED true s'
      = (Ok (Some sh''), s'')
    ∧ ShipmentModel.shipped_at sh'' = Some 1000%Z.
Proof.
  destruct (update_shipment_status_set_once 1000 5 SHIPPED true
              Sample.packed Sample.packed_shipment eq_refl)
    as (sh' & s' & Hrun & _ & _ & Hshipped & _ & _ & _ & _ & _ & Hagain).
  destruct (Hagain 2000%Z true) as (sh'' & s'' & Hrun' & _ & Hkept & _).
  exists sh', s', sh'', s''. split; [exact Hrun|].
  split; [by apply Hshipped|]. split; [exact Hrun'|].
  apply Hkept. by apply Hshipped.
Defined.

(** * Properties of the rest of the service layer *)

(** ** More on order creation *)

Lemma quantity_of_not_named pid (items : list OrderItemCreate.t) :
  pid ∉ map OrderItemCreate.product_id items →
  quantity_of pid (requested items) = 0.
Proof.
  induction items as [|i items IH]; simpl; [done|].
  rewrite not_elem_of_cons. intros [Hne Hnot].
  rewrite decide_False by done. by apply IH.
Qed.

(** On success every product a line names ends with stock at or above
    zero: the last line that names it passed the stock check. *)
Lemma create_loop_named_nonneg oid items : ∀ acc s sub s' pid p',
  for_each_acc items acc (OrderService.create_order_item oid) s = (Ok sub, s') →
  pid ∈ map OrderItemCreate.product_id items →
  product (working s') !! pid = Some p' →
  0 <= ProductModel.stock_quantity p'.
Proof.
  induction items as [|i items IH]; intros acc s sub s' pid p' Hrun Hin Hp'.
  - by apply elem_of_nil in Hin.
  - simpl in Hrun. unfold mbind, M_bind in Hrun.
    rewrite create_order_item_eq in Hrun.
    destruct (product (working s) !! OrderItemCreate.product_id i)
      as [p|] eqn:Hp; [|done].
    destruct (Qlt_le_dec _ _) as [Hlt|Hle]; [done|].
    destruct (decide (pid ∈ map OrderItemCreate.product_id items))
      as [Hlater|Hnot].
    { eapply IH; eauto. }
    simpl in Hin. apply elem_of_cons in Hin as [->|Hin]; [|done].
    apply create_loop_Ok in Hrun as (_ & _ & _ & _ & Hst).
    specialize (Hst (OrderItemCreate.product_id i)). simpl in Hst.
    rewrite lookup_alter_eq, Hp, Hp', quantity_of_not_named in Hst by done.
    simpl in Hst. inversion Hst as [? ? [Hq _]|]. subst.
    destruct p; simpl in *. lra.
Qed.

(** X1: a successful [create_order] never takes more of a product than was
    in stock, all lines for the product taken together. *)
Theorem create_order_no_cumulative_oversell new_id order_data s r s' pid p :
  OrderService.create_order new_id order_data s = (Ok r, s') →
  pid ∈ map OrderItemCreate.product_id (OrderCreate.items order_data) →
  product (working s) !! pid = Some p →
  quantity_of pid (requested (OrderCreate.items order_data))
    <= ProductModel.stock_quantity p.
Proof.
  intros Hrun Hin Hp.
  pose proof Hrun as Hloop. rewrite create_order_eq in Hloop.
  destruct (orders (working s) !! new_id); [done|].
  destruct (for_each_acc _ _ _ _) as [[subtotal|e1] s1] eqn:Hfor; [|done].
  injection Hloop as _ Hs'.
  apply create_order_Ok in Hrun as (_ & _ & _ & _ & _ & _ & _ & Hst).
  specialize (Hst pid). rewrite Hp in Hst.
  inversion Hst as [p0 p' [Hq _] Hp0 Hp'|]. clear Hp0.
  symmetry in Hp'.
  assert (0 <= ProductModel.stock_quantity p') as Hnonneg; [|lra].
  eapply (create_loop_named_nonneg _ _ _ _ _ _ pid p' Hfor); [done|].
  by rewrite <- Hs' in Hp'.
Qed.

(** Two lines of 2 units on a stock of 5: the 4 units asked for are within
    the stock. *)
Lemma create_order_no_cumulative_oversell_witness :
  quantity_of 7 (requested (OrderCreate.items Scenario.split_request))
  <= ProductModel.stock_quantity (Sample.tomato 5).
Proof.
  eassert (OrderService.create_order 100 Scenario.split_request
             (new_session (Sample.shop 5)) = (Ok _, _)) as Hrun
    by (vm_compute; reflexivity).
  apply (create_order_no_cumulative_oversell _ _ _ _ _ 7%N (Sample.tomato 5)
           Hrun).
  - simpl. left.
  - reflexivity.
Defined.





(** ** Status and payment updates of orders *)

Lemma update_order_status_eq order_id status s :
  OrderStatusUpdates.update_order_status order_id status s =
  match orders (working s) !! order_id with
  | None => (Ok None, s)
  | Some o =>
      let w := with_orders (alter (OrderModel.set_status status) order_id)
                 (working s) in
      (Ok (Some (OrderModel.set_status status o)),
       {| committed := w; working := w |})
  end.
Proof.
  unfold OrderStatusUpdates.update_order_status, OrderService.get_order,
    db_select_order, mbind, M_bind.
  destruct (orders (working s) !! order_id) as [o|] eqn:Ho; [|done].
  simpl. by rewrite lookup_alter_eq, Ho.
Qed.

(** X4: the status setter knows no transition table and no stock.  A
    cancelled order put back to any open status can be cancelled again, and
    the second cancellation gives the quantities of its items back a second
    time: every product ends with twice those quantities added. *)
Theorem reopened_order_restores_stock_twice order_id status s o :
  orders (working s) !! order_id = Some o →
  OrderModel.status o ≠ CANCELLED ∧ OrderModel.status o ≠ FULFILLED →
  status ≠ CANCELLED ∧ status ≠ FULFILLED →
  ∃ o1 s1 o2 s2 o3 s3,
    OrderService.cancel_order order_id s = (Ok (Some o1), s1)
    ∧ OrderStatusUpdates.update_order_status order_id status s1
      = (Ok (Some o2), s2)
    ∧ OrderModel.status o2 = status
    ∧ product (committed s2) = product (committed s1)
    ∧ OrderService.cancel_order order_id s2 = (Ok (Some o3), s3)
    ∧ OrderModel.status o3 = CANCELLED
    ∧ ∀ pid, option_Forall2
               (stock_shift
                  (2 * quantity_of pid (ordered (OrderModel.order_items o))))
               (product (working s) !! pid) (product (committed s3) !! pid).
Proof.
  intros Ho [HnC HnF] [HsC HsF].
  destruct (restore_loop (OrderModel.order_items o) s)
    as (s1 & Hrun1 & _ & Hord1 & _ & Hup1).
  pose proof (cancel_order_run _ _ o s1 Ho) as Hc1.
  rewrite cancellable_iff in Hc1.
  specialize (Hc1 ltac:(by intros [|]) Hrun1). simpl in Hc1.
  rewrite lookup_alter_eq, Hord1, Ho in Hc1. simpl in Hc1.
  set (w1 := with_orders _ (working s1)) in Hc1.
  set (s1' := {| committed := w1; working := w1 |}) in Hc1.
  assert (orders (working s1') !! order_id
          = Some (OrderModel.set_status CANCELLED o)) as Ho1.
  { simpl. by rewrite lookup_alter_eq, Hord1, Ho. }
  pose proof (update_order_status_eq order_id status s1') as Hu.
  rewrite Ho1 in Hu. simpl in Hu.
  set (o2 := OrderModel.set_status status _) in Hu.
  set (w2 := with_orders _ w1) in Hu.
  set (s2 := {| committed := w2; working := w2 |}) in Hu.
  assert (orders (working s2) !! order_id = Some o2) as Ho2.
  { simpl. by rewrite !lookup_alter_eq, Hord1, Ho. }
  destruct (restore_loop (OrderModel.order_items o2) s2)
    as (s3 & Hrun3 & _ & Hord3 & _ & Hup3).
  pose proof (cancel_order_run _ _ o2 s3 Ho2) as Hc3.
  rewrite cancellable_iff in Hc3.
  specialize (Hc3 ltac:(by intros [|]) Hrun3). simpl in Hc3.
  rewrite lookup_alter_eq, Hord3, Ho2 in Hc3. simpl in Hc3.
  eexists _, _, _, _, _, _.
  split; [exact Hc1|]. split; [exact Hu|]. split; [done|].
  split; [done|]. split; [exact Hc3|]. split; [done|].
  intros pid. simpl.
  eapply option_stock_shift_trans; [apply Hup1 | apply Hup3 |].
  simpl. lra.
Qed.

(** The order of 3 units placed on a stock of 5 is cancelled, set back to
    PENDING_PAYMENT and cancelled again. *)
Lemma reopened_order_restores_stock_twice_witness :
  ∃ o o1 s1 o2 s2 o3 s3,
    orders (working Sample.placed) !! 100%N = Some o
    ∧ OrderService.cancel_order 100 Sample.placed = (Ok (Some o1), s1)
    ∧ OrderStatusUpdates.update_order_status 100 PENDING_PAYMENT s1
      = (Ok (Some o2), s2)
    ∧ OrderService.cancel_order 100 s2 = (Ok (Some o3), s3)
    ∧ ∀ pid, option_Forall2
               (stock_shift
                  (2 * quantity_of pid (ordered (OrderModel.order_items o))))
               (product (working Sample.placed) !! pid)
               (product (committed s3) !! pid).
Proof.
  eassert (orders (working Sample.placed) !! 100%N = Some _) as Ho
    by (vm_compute; reflexivity).
  destruct (reopened_order_restores_stock_twice 100 PENDING_PAYMENT
              Sample.placed _ Ho)
    as (o1 & s1 & o2 & s2 & o3 & s3 & H1 & H2 & _ & _ & H3 & _ & Hstock).
  - split; discriminate.
  - split; discriminate.
  - eexists _, o1, s1, o2, s2, o3, s3. split; [exact Ho|]. done.
Defined.

(** ** Manual stock corrections *)




(** ** Completing a payment *)

Lemma execute_paypal_payment_eq (paypal_provider : PaymentExecution)
    UUID_of_str payment_id payer_id s :
  PaymentCompletion.execute_paypal_payment paypal_provider UUID_of_str
    payment_id payer_id s =
  match execute_payment payment_id payer_id with
  | ProviderFailure error => (Ok (NotExecuted (ExecutionFailed error)), s)
  | ProviderSuccess ex =>
      match reconciled_order UUID_of_str ex with
      | Some order_uuid =>
          let w :=
            with_orders
              (alter (paid_with
                        (opt_str_or (executed_transaction_id ex) payment_id))
                 order_uuid) (working s) in
          (Ok (Executed (execution_report payment_id ex)),
           {| committed := w; working := w |})
      | None => (Ok (Executed (execution_report payment_id ex)), s)
      end
  end.
Proof.
  unfold PaymentCompletion.execute_paypal_payment, try_except, mbind, M_bind,
    reconciled_order.
  destruct (execute_payment payment_id payer_id) as [ex|error]; [|done].
  destruct (opt_str_truthy (executed_order_id ex)); [|done].
  by destruct (UUID_of_str _).
Qed.

(** X6: [execute_paypal_payment] reports the provider's failure and changes
    nothing; on provider success it always reports success, writes nothing
    but the order the answer points to, and marks that order PAID and
    CAPTURED whatever its state was, with the transaction id, or else the
    payment id, as reference.  An answer that names no order, or an
    unreadable one, changes no row at all. *)
Theorem execute_paypal_payment_reconciles
    (paypal_provider : PaymentExecution) UUID_of_str payment_id payer_id s :
  let run := PaymentCompletion.execute_paypal_payment paypal_provider
               UUID_of_str payment_id payer_id s in
  (∀ error, execute_payment payment_id payer_id = ProviderFailure error →
     run = (Ok (NotExecuted (ExecutionFailed error)), s))
  ∧ ∀ ex, execute_payment payment_id payer_id = ProviderSuccess ex →
      run.1 = Ok (Executed (execution_report payment_id ex))
      ∧ product (working run.2) = product (working s)
      ∧ shipment (working run.2) = shipment (working s)
      ∧ (∀ k, reconciled_order UUID_of_str ex ≠ Some k →
              orders (working run.2) !! k = orders (working s) !! k)
      ∧ (reconciled_order UUID_of_str ex = None → run.2 = s)
      ∧ (∀ k o, reconciled_order UUID_of_str ex = Some k →
                orders (working s) !! k = Some o →
                orders (committed run.2) !! k
                = Some (paid_with
                          (opt_str_or (executed_transaction_id ex)
                             payment_id) o)).
Proof.
  intros run. subst run. rewrite execute_paypal_payment_eq. split.
  - by intros error ->.
  - intros ex ->. destruct (reconciled_order UUID_of_str ex) as [oid|].
    + simpl. repeat split; try done.
      * intros k Hk. rewrite lookup_alter_ne; [done|congruence].
      * intros k o [= <-] Ho. by rewrite lookup_alter_eq, Ho.
    + simpl. repeat split; done.
Qed.

(** Executing a payment for the order placed: it ends PAID and CAPTURED
    under the transaction id. *)
Lemma execute_paypal_payment_reconciles_witness :
  ∃ o a s',
    orders (working Sample.placed) !! 100%N = Some o
    ∧ PaymentCompletion.execute_paypal_payment Scenario.completing_provider
        Scenario.UUID_of_str "PAY-1" "PAYER" Sample.placed
      = (Ok (Executed a), s')
    ∧ orders (committed s') !! 100%N = Some (paid_with "SALE-1" o).
Proof.
  eassert (orders (working Sample.placed) !! 100%N = Some _) as Ho
    by (vm_compute; reflexivity).
  destruct (execute_paypal_payment_reconciles Scenario.completing_provider
              Scenario.UUID_of_str "PAY-1" "PAYER" Sample.placed)
    as [_ Hsuccess].
  destruct (Hsuccess _ eq_refl) as (Hanswer & _ & _ & _ & _ & Hpaid).
  eexists _, _, _. split; [exact Ho|]. split.
  - apply injective_projections; [exact Hanswer|reflexivity].
  - apply (Hpaid 100%N); [by vm_compute|exact Ho].
Defined.

Lemma uuid_str_truthy u : opt_str_truthy (Some (uuid_str u)) = true.
Proof.
  unfold uuid_str. cbv zeta.
  by destruct (substring 0 8 (hex_fixed 32 u)).
Qed.

(** X7: the whole payment flow.  A payment opened for a payable order and
    then executed, the provider handing back the order id it was given,
    leaves the order PAID and CAPTURED; from then on opening a payment for
    it is refused and changes nothing. *)
Theorem payment_flow_settles_order (paypal_provider : BasePaymentProvider)
    (executor : PaymentExecution) UUID_of_str order_id return_url cancel_url
    payer_id s o payment ex :
  orders (working s) !! order_id = Some o →
  OrderModel.status o = DRAFT ∨ OrderModel.status o = PENDING_PAYMENT →
  OrderModel.payment_status o ≠ CAPTURED →
  provider_create_call paypal_provider order_id o return_url cancel_url
    = ProviderSuccess payment →
  execute_payment (created_payment_id payment) payer_id = ProviderSuccess ex →
  executed_order_id ex = Some (uuid_str order_id) →
  UUID_of_str (uuid_str order_id) = Some order_id →
  ∃ created s1 s2 o2,
    PaymentService.create_paypal_payment paypal_provider order_id
      return_url cancel_url s = (Ok (Success created), s1)
    ∧ PaymentCompletion.execute_paypal_payment executor UUID_of_str
        (pc_payment_id created) payer_id s1
      = (Ok (Executed (execution_report (pc_payment_id created) ex)), s2)
    ∧ orders (committed s2) !! order_id = Some o2
    ∧ OrderModel.status o2 = PAID
    ∧ OrderModel.payment_status o2 = CAPTURED
    ∧ OrderModel.payment_provider o2 = Some "PAYPAL"
    ∧ OrderModel.payment_reference o2
      = Some (opt_str_or (executed_transaction_id ex)
                (created_payment_id payment))
    ∧ OrderModel.total_amount o2 = OrderModel.total_amount o
    ∧ PaymentService.create_paypal_payment paypal_provider order_id
        return_url cancel_url s2
      = (Ok (Failure (CannotBePaid PAID)), s2).
Proof.
  intros Ho Hst Hps Hcreate Hexec Hecho Hparse.
  assert (reconciled_order UUID_of_str ex = Some order_id) as Hrec.
  { unfold reconciled_order. by rewrite Hecho, uuid_str_truthy. }
  eexists _, _, _, _.
  split.
  { rewrite create_paypal_payment_eq, Ho.
    rewrite bool_decide_eq_false_2.
    2: { rewrite !not_elem_of_cons. intros (Hd & Hp & _). by destruct Hst. }
    rewrite bool_decide_eq_false_2 by done. by rewrite Hcreate. }
  simpl. split.
  { by rewrite execute_paypal_payment_eq, Hexec, Hrec. }
  simpl. rewrite !lookup_alter_eq, Ho. simpl.
  repeat split.
  rewrite create_paypal_payment_eq. simpl.
  by rewrite !lookup_alter_eq, Ho.
Qed.

(** The order placed is paid for: opened, executed, and then refused. *)
Lemma payment_flow_settles_order_witness :
  ∃ created s1 a s2 o2,
    PaymentService.create_paypal_payment Sample.approving_provider 100
      None None Sample.placed = (Ok (Success created), s1)
    ∧ PaymentCompletion.execute_paypal_payment Scenario.completing_provider
        Scenario.UUID_of_str (pc_payment_id created) "PAYER" s1
      = (Ok (Executed a), s2)
    ∧ orders (committed s2) !! 100%N = Some o2
    ∧ OrderModel.status o2 = PAID
    ∧ OrderModel.payment_status o2 = CAPTURED
    ∧ PaymentService.create_paypal_payment Sample.approving_provider 100
        None None s2
      = (Ok (Failure (CannotBePaid PAID)), s2).
Proof.
  eassert (orders (working Sample.placed) !! 100%N = Some _) as Ho
    by (vm_compute; reflexivity).
  destruct (payment_flow_settles_order Sample.approving_provider
              Scenario.completing_provider Scenario.UUID_of_str 100
              None None "PAYER" Sample.placed _
              {| created_payment_id := "PAY-1";
                 created_approval_url :=
                   Some "https://paypal.example/approve" |}
              {| executed_payment_id := "PAY-1";
                 executed_payment_state := Some "approved";
                 executed_transaction_id := Some "SALE-1";
                 executed_amount := Some "30.00";
                 executed_currency := Some "ILS";
                 executed_order_id := Some (uuid_str 100) |} Ho)
    as (created & s1 & s2 & o2 & H1 & H2 & Ho2 & Hst & Hpay & _ & _ & _ & H3).
  - by left.
  - discriminate.
  - reflexivity.
  - reflexivity.
  - reflexivity.
  - by vm_compute.
  - by eexists created, s1, _, s2, o2.
Defined.

(** X8: a partial refund leaves no trace.  When the provider accepts a
    refund of a non-zero amount below the total, the session ends exactly
    as the working rows were before the call: the order is still CAPTURED
    for its full total, so the same refund can be asked again. *)
Theorem partial_refund_leaves_no_trace (paypal_provider : BasePaymentProvider)
    order_id a s o refund :
  orders (working s) !! order_id = Some o →
  OrderModel.payment_provider o = Some "PAYPAL" →
  OrderModel.payment_status o = CAPTURED →
  opt_str_truthy (OrderModel.payment_reference o) = true →
  refund_payment (default "" (OrderModel.payment_reference o)) (Some a)
    = ProviderSuccess refund →
  ¬ a == 0 →
  a < OrderModel.total_amount o →
  ∃ answer s',
    PaymentService.refund_paypal_payment paypal_provider order_id (Some a) s
    = (Ok (Success answer), s')
    ∧ pr_refund_amount answer = a
    ∧ committed s' = working s
    ∧ working s' = working s.
Proof.
  intros Ho Hprov Hps Href Hrefund Hnz Hlt.
  rewrite refund_paypal_payment_eq, Ho.
  rewrite bool_decide_eq_false_2 by (by intros ?).
  rewrite bool_decide_eq_false_2 by (by intros ?).
  rewrite Href, Hrefund. simpl.
  rewrite status_after_refund_partial by done.
  assert (with_orders (alter (OrderModel.set_payment_status CAPTURED) order_id)
            (working s) = working s) as Hsame.
  { destruct (working s) as [pr ord sh]. unfold with_orders. simpl in *.
    f_equal. apply map_eq. intros k. rewrite lookup_alter.
    case_decide; [subst k|done]. rewrite Ho. simpl. f_equal.
    destruct o. simpl in *. by subst. }
  rewrite Hsame. eexists _, _. split; [done|]. simpl.
  split; [|done].
  unfold opt_decimal_truthy, decimal_truthy.
  destruct (Qeq_bool a 0) eqn:Hz; [|done]. by apply Qeq_bool_iff in Hz.
Qed.

(** Refunding 10.00 of the 30.00 captured. *)
Lemma partial_refund_leaves_no_trace_witness :
  ∃ answer s',
    PaymentService.refund_paypal_payment Sample.approving_provider 100
      (Some 10) Sample.paid = (Ok (Success answer), s')
    ∧ pr_refund_amount answer = 10
    ∧ committed s' = working Sample.paid
    ∧ working s' = working Sample.paid.
Proof.
  apply (partial_refund_leaves_no_trace Sample.approving_provider 100 10
           Sample.paid Sample.paid_order
           {| refund_id := "REF-1"; refund_state := "completed" |}).
  - reflexivity.
  - reflexivity.
  - reflexivity.
  - reflexivity.
  - reflexivity.
  - intros H. discriminate H.
  - simpl. lra.
Defined.

(** ** Order routes *)

Lemma update_payment_status_missing order_id payment_status reference s :
  orders (working s) !! order_id = None →
  OrderStatusUpdates.update_payment_status order_id payment_status reference s
  = (Ok None, s).
Proof.
  intros Ho.
  unfold OrderStatusUpdates.update_payment_status, OrderService.get_order,
    db_select_order, mbind, M_bind.
  by rewrite Ho.
Qed.

Lemma cancel_order_missing order_id s :
  orders (working s) !! order_id = None →
  OrderService.cancel_order order_id s = (Ok None, s).
Proof.
  intros Ho.
  unfold OrderService.cancel_order, OrderService.get_order, db_select_order,
    mbind, M_bind.
  by rewrite Ho.
Qed.

Lemma delete_order_missing order_id s :
  orders (working s) !! order_id = None →
  OrderService.delete_order order_id s = (Ok false, s).
Proof.
  intros Ho.
  unfold OrderService.delete_order, OrderService.get_order, db_select_order,
    mbind, M_bind.
  by rewrite Ho.
Qed.

(** X9: every order route that takes an order id answers 404 "Order not
    found" for an id the store does not hold, and leaves the session as it
    was. *)
Theorem order_routes_unknown_order order_id status payment_status reference s :
  orders (working s) !! order_id = None →
  let not_found {A} : Response A :=
    HTTPException 404 (DetailText "Order not found") in
  OrderRoutes.get_order order_id s = (Ok not_found, s)
  ∧ OrderRoutes.delete_order order_id s = (Ok not_found, s)
  ∧ OrderRoutes.cancel_order order_id s = (Ok not_found, s)
  ∧ OrderRoutes.update_order_status order_id status s = (Ok not_found, s)
  ∧ OrderRoutes.update_payment_status order_id payment_status reference s
    = (Ok not_found, s).
Proof.
  intros Ho not_found. repeat split.
  - unfold OrderRoutes.get_order, OrderService.get_order, db_select_order,
      mbind, M_bind. by rewrite Ho.
  - unfold OrderRoutes.delete_order, except_ValueError, try_except,
      mbind, M_bind. by rewrite delete_order_missing.
  - unfold OrderRoutes.cancel_order, except_ValueError, try_except,
      mbind, M_bind. by rewrite cancel_order_missing.
  - unfold OrderRoutes.update_order_status, mbind, M_bind.
    by rewrite update_order_status_eq, Ho.
  - unfold OrderRoutes.update_payment_status, mbind, M_bind.
    by rewrite update_payment_status_missing.
Qed.

(** Order 101 in a store that holds order 100. *)
Lemma order_routes_unknown_order_witness :
  OrderRoutes.get_order 101 Sample.paid
  = (Ok (HTTPException 404 (DetailText "Order not found")), Sample.paid)
  ∧ OrderRoutes.cancel_order 101 Sample.paid
    = (Ok (HTTPException 404 (DetailText "Order not found")), Sample.paid).
Proof.
  destruct (order_routes_unknown_order 101 PAID CAPTURED None Sample.paid)
    as (Hget & _ & Hcancel & _); [reflexivity|].
  by split.
Defined.



(** ** [update_order] *)

Lemma update_order_eq order_id u s :
  OrderUpdates.update_order order_id u s =
  match orders (working s) !! order_id with
  | None => (Done None, s)
  | Some o =>
      if OrderUpdate.is_empty u then (Done (Some o), s)
      else if nulls_amount u then (Failed TypeError, s)
      else if OrderUpdate.nulls_required_column u
      then (Failed (Earlier IntegrityError), s)
      else
        let o' := apply_order_update u (recalculated_total u o) o in
        let w := with_orders (alter (λ _, o') order_id) (working s) in
        (Done (Some o'), {| committed := w; working := w |})
  end.
Proof.
  unfold OrderUpdates.update_order, OrderService.get_order, db_select_order,
    call, mbind, Service_bind, recalculated_total, nulls_amount.
  destruct (orders (working s) !! order_id) as [o|] eqn:Ho; [|done].
  destruct (OrderUpdate.is_empty u); [done|].
  destruct (OrderUpdate.shipping_amount u) as [|[sh|]],
    (OrderUpdate.discount_amount u) as [|[di|]]; simpl; try done.
  all: destruct (OrderUpdate.nulls_required_column u); simpl; [done|].
  all: rewrite lookup_alter_eq, Ho; simpl.
  all: match goal with
       | |- (_, {| committed := with_orders (alter ?f _) _ |}) = _ =>
           assert (alter f order_id (orders (working s))
                   = alter (λ _, f o) order_id (orders (working s))) as Heq
             by (apply alter_ext; intros x Hx; congruence)
       end.
  all: unfold with_orders; simpl; by rewrite Heq.
Qed.

(** X11: what [update_order] refuses or skips.  An unknown id gives [None];
    a request that sets no field gives the order back without a commit; a
    null shipping or discount amount raises [TypeError] and a null status
    or payment status an [IntegrityError]; in all these cases the session
    is left as it was. *)
Theorem update_order_refusals order_id u s :
  let run := OrderUpdates.update_order order_id u s in
  (orders (working s) !! order_id = None → run = (Done None, s))
  ∧ ∀ o, orders (working s) !! order_id = Some o →
      (OrderUpdate.is_empty u = true → run = (Done (Some o), s))
      ∧ (OrderUpdate.is_empty u = false →
         (nulls_amount u = true → run = (Failed TypeError, s))
         ∧ (nulls_amount u = false →
            OrderUpdate.nulls_required_column u = true →
            run = (Failed (Earlier IntegrityError), s))).
Proof.
  intros run. subst run. rewrite update_order_eq. split.
  - by intros ->.
  - intros o ->. split.
    + by intros ->.
    + intros ->. split.
      * by intros ->.
      * by intros -> ->.
Qed.

(** A request that sets nothing, and one for an order the store does not
    hold. *)
Lemma update_order_refusals_witness :
  OrderUpdates.update_order 100 Scenario.no_update Sample.paid
  = (Done (Some Sample.paid_order), Sample.paid)
  ∧ OrderUpdates.update_order 101 Scenario.shipping_update Sample.paid
    = (Done None, Sample.paid).
Proof.
  split.
  - destruct (update_order_refusals 100 Scenario.no_update Sample.paid)
      as [_ Hfound].
    destruct (Hfound Sample.paid_order eq_refl) as [Hempty _].
    by apply Hempty.
  - destruct (update_order_refusals 101 Scenario.shipping_update Sample.paid)
      as [Hmissing _].
    by apply Hmissing.
Defined.

Lemma apply_order_update_amounts u total o :
  nulls_amount u = false →
  OrderModel.shipping_amount (apply_order_update u total o)
  = patched_required (OrderUpdate.shipping_amount u)
      (OrderModel.shipping_amount o)
  ∧ OrderModel.discount_amount (apply_order_update u total o)
    = patched_required (OrderUpdate.discount_amount u)
        (OrderModel.discount_amount o).
Proof. done. Qed.




(** ** The totals of the stored orders *)







(** ** Selecting shipments *)

Lemma list_all_equal {A} (l : list A) a :
  NoDup l → a ∈ l → (∀ b, b ∈ l → b = a) → l = [a].
Proof.
  intros Hnd Ha Hall. destruct l as [|b l]; [by apply elem_of_nil in Ha|].
  assert (b = a) as -> by (apply Hall; left).
  destruct l as [|c l]; [done|].
  assert (c = a) as -> by (apply Hall; right; left).
  apply NoDup_cons in Hnd as [Hnot _]. exfalso. apply Hnot. left.
Qed.

Lemma list_two_elements {A} (l : list A) a b :
  a ∈ l → b ∈ l → a ≠ b → ∃ c d rest, l = c :: d :: rest.
Proof.
  intros Ha Hb Hne. destruct l as [|c l]; [by apply elem_of_nil in Ha|].
  destruct l as [|d l]; [|by eauto].
  apply list_elem_of_singleton in Ha, Hb. congruence.
Qed.

Section Selection.
Context (selects : ShipmentModel.t → bool) (m : gmap N ShipmentModel.t).

Local Abbreviation rows :=
  (map_to_list (filter (λ kv, selects kv.2 = true) m)).

Lemma selected_iff k x :
  (k, x) ∈ rows ↔ m !! k = Some x ∧ selects x = true.
Proof.
  rewrite elem_of_map_to_list, map_lookup_filter_Some. done.
Qed.

Lemma select_none :
  (∀ k x, m !! k = Some x → selects x = false) → rows = [].
Proof.
  intros Hnone. destruct rows as [|[k x] l] eqn:Hrows; [done|].
  assert ((k, x) ∈ rows) as Hin by (rewrite Hrows; left).
  apply selected_iff in Hin as [Hk Hx]. apply Hnone in Hk. congruence.
Qed.

Lemma select_one k x :
  m !! k = Some x → selects x = true →
  (∀ j y, m !! j = Some y → selects y = true → j = k) →
  rows = [(k, x)].
Proof.
  intros Hk Hx Honly. apply list_all_equal.
  - apply NoDup_map_to_list.
  - by apply selected_iff.
  - intros [j y] [Hj Hy]%selected_iff.
    assert (j = k) as -> by eauto. congruence.
Qed.

Lemma select_several i j x y :
  m !! i = Some x → m !! j = Some y → i ≠ j →
  selects x = true → selects y = true →
  ∃ c d rest, rows = c :: d :: rest.
Proof.
  intros Hi Hj Hne Hx Hy.
  apply (list_two_elements rows (i, x) (j, y)).
  - by apply selected_iff.
  - by apply selected_iff.
  - congruence.
Qed.
End Selection.

Lemma get_shipment_by_order_eq order_id s :
  Shipments.get_shipment_by_order order_id s =
  match map_to_list
          (filter (λ kv, bool_decide (ShipmentModel.order_id kv.2 = order_id)
                         = true) (shipment (working s))) with
  | [] => (Done None, s)
  | [row] => (Done (Some row), s)
  | _ => (Failed MultipleResultsFound, s)
  end.
Proof.
  unfold Shipments.get_shipment_by_order, db_select_shipments, mbind,
    Service_bind, scalar_one_or_none.
  by destruct (map_to_list _) as [|? [|? ?]].
Qed.

(** Under the unique constraint the shipment of an order is found, or
    found missing, and the query never raises. *)
Lemma get_shipment_by_order_unique order_id s :
  one_shipment_per_order (shipment (working s)) →
  (Shipments.get_shipment_by_order order_id s = (Done None, s)
   ∧ ∀ k x, shipment (working s) !! k = Some x →
            ShipmentModel.order_id x ≠ order_id)
  ∨ ∃ k x,
      Shipments.get_shipment_by_order order_id s = (Done (Some (k, x)), s)
      ∧ shipment (working s) !! k = Some x
      ∧ ShipmentModel.order_id x = order_id.
Proof.
  intros Huniq. rewrite get_shipment_by_order_eq.
  set (selects := λ sh : ShipmentModel.t,
                    bool_decide (ShipmentModel.order_id sh = order_id)).
  destruct (map_to_list _) as [|[k x] l] eqn:Hrows.
  - left. split; [done|]. intros k x Hk Hx.
    assert ((k, x) ∈ @nil (N * ShipmentModel.t)) as Hin.
    { rewrite <- Hrows. apply (selected_iff selects). split; [done|].
      by apply bool_decide_eq_true_2. }
    by apply elem_of_nil in Hin.
  - right. exists k, x.
    assert ((k, x) ∈ (k, x) :: l) as Hin by left.
    rewrite <- Hrows in Hin. apply (selected_iff selects) in Hin as [Hk Hx].
    apply bool_decide_eq_true_1 in Hx.
    rewrite (select_one selects _ k x) in Hrows.
    + injection Hrows as <-. done.
    + done.
    + by apply bool_decide_eq_true_2.
    + intros j y Hj Hy. apply bool_decide_eq_true_1 in Hy.
      eapply Huniq; eauto. congruence.
Qed.

(** ** Shipments: creation, shipping, cancellation, deletion *)

Lemma create_shipment_eq new_id data s :
  Shipments.create_shipment new_id data s =
  match orders (working s) !! ShipmentCreate.order_id data with
  | None => (Failed (ShipmentValueError ShipmentOrderNotFound), s)
  | Some _ =>
      match shipments_of (ShipmentCreate.order_id data) (working s) with
      | [] =>
          match shipment (working s) !! new_id with
          | Some _ => (Failed (Earlier IntegrityError), s)
          | None =>
              let w := with_shipment (insert new_id (new_shipment_row data))
                         (working s) in
              (Done (Some (new_shipment_row data)),
               {| committed := w; working := w |})
          end
      | [_] => (Failed (ShipmentValueError OrderAlreadyHasShipment), s)
      | _ => (Failed MultipleResultsFound, s)
      end
  end.
Proof.
  unfold Shipments.create_shipment, call, db_select_order.
  unfold mbind at 1, Service_bind at 1.
  destruct (orders (working s) !! ShipmentCreate.order_id data); [|done].
  unfold mbind at 1, Service_bind at 1.
  rewrite get_shipment_by_order_eq. unfold shipments_of.
  destruct (map_to_list _) as [|? [|? ?]]; [|done|done].
  unfold mbind, Service_bind, db_add_shipment_commit,
    ShipmentService.get_shipment, db_select_shipment.
  destruct (shipment (working s) !! new_id) eqn:Hnew; [done|].
  simpl. by rewrite lookup_insert_eq.
Qed.

Lemma update_shipment_eq shipment_id u s :
  Shipments.update_shipment shipment_id u s =
  match shipment (working s) !! shipment_id with
  | None => (Done None, s)
  | Some x =>
      if ShipmentUpdate.is_empty u then (Done (Some x), s)
      else
        match ShipmentUpdate.status u with
        | SetTo None => (Failed (Earlier IntegrityError), s)
        | _ =>
            let w := with_shipment
                       (alter (apply_shipment_update u) shipment_id)
                       (working s) in
            (Done (Some (apply_shipment_update u x)),
             {| committed := w; working := w |})
        end
  end.
Proof.
  unfold Shipments.update_shipment, call, ShipmentService.get_shipment,
    db_select_shipment, mbind, Service_bind.
  destruct (shipment (working s) !! shipment_id) as [x|] eqn:Hx; [|done].
  destruct (ShipmentUpdate.is_empty u); [done|].
  destruct (ShipmentUpdate.status u) as [|[st|]]; simpl; try done.
  all: by rewrite lookup_alter_eq, Hx.
Qed.

Lemma call_update_shipment_status_eq now shipment_id status flag s :
  call (ShipmentService.update_shipment_status now shipment_id status flag) s
  = match shipment (working s) !! shipment_id with
    | None => (Done None, s)
    | Some x =>
        let w := with_shipment
                   (alter (apply_update_data
                             (status_update_data now status flag x))
                      shipment_id)
                   (working s) in
        (Done (Some (pushed now status flag x)),
         {| committed := w; working := w |})
    end.
Proof.
  unfold call. rewrite update_shipment_status_eq.
  destruct (shipment (working s) !! shipment_id) as [x|] eqn:Hx; [|done].
  simpl. by rewrite lookup_alter_eq, Hx.
Qed.

Lemma one_shipment_alter (f : ShipmentModel.t → ShipmentModel.t) k m :
  (∀ x, m !! k = Some x →
        ShipmentModel.order_id (f x) = ShipmentModel.order_id x) →
  one_shipment_per_order m → one_shipment_per_order (alter f k m).
Proof.
  intros Hf Hm i j x y. rewrite !lookup_alter.
  repeat case_decide; subst.
  - done.
  - destruct (m !! i) as [x0|] eqn:Hi; [|done]. simpl.
    intros [= <-] Hj Heq. eapply Hm; eauto. rewrite <- Heq. symmetry. eauto.
  - destruct (m !! j) as [y0|] eqn:Hj; [|done]. simpl.
    intros Hi [= <-] Heq. eapply Hm; eauto. rewrite Heq. eauto.
  - apply Hm.
Qed.

Lemma one_shipment_insert k x m :
  (∀ j y, m !! j = Some y →
          ShipmentModel.order_id y ≠ ShipmentModel.order_id x) →
  one_shipment_per_order m → one_shipment_per_order (<[k := x]> m).
Proof.
  intros Hnew Hm i j a b. rewrite !lookup_insert.
  repeat case_decide; subst; try done.
  - intros [= <-] Hj Heq. by destruct (Hnew _ _ Hj).
  - intros Hi [= <-] Heq. by destruct (Hnew _ _ Hi).
  - apply Hm.
Qed.

Lemma one_shipment_subseteq (m m' : gmap N ShipmentModel.t) :
  m' ⊆ m → one_shipment_per_order m → one_shipment_per_order m'.
Proof.
  intros Hsub Hm i j x y Hi Hj.
  eapply Hm; eapply lookup_weaken; eauto.
Qed.

Lemma one_shipment_empty : one_shipment_per_order ∅.
Proof. intros i j x y Hi. by rewrite lookup_empty in Hi. Qed.

Lemma one_shipment_singleton k x : one_shipment_per_order {[ k := x ]}.
Proof.
  intros i j a b [-> _]%lookup_singleton_Some [-> _]%lookup_singleton_Some.
  done.
Qed.

Lemma shipments_of_unique order_id d :
  one_shipment_per_order (shipment d) →
  (shipments_of order_id d = []
   ∧ ∀ k x, shipment d !! k = Some x → ShipmentModel.order_id x ≠ order_id)
  ∨ ∃ k x, shipments_of order_id d = [(k, x)]
           ∧ shipment d !! k = Some x
           ∧ ShipmentModel.order_id x = order_id.
Proof.
  intros Huniq.
  destruct (get_shipment_by_order_unique order_id
              {| committed := d; working := d |} Huniq)
    as [[Hrun Hnone]|(k & x & Hrun & Hk & Hx)];
    rewrite get_shipment_by_order_eq in Hrun; simpl in *;
    fold (shipments_of order_id d) in Hrun.
  - left. split; [|done].
    by destruct (shipments_of order_id d) as [|? [|? ?]].
  - right. exists k, x. split; [|done].
    destruct (shipments_of order_id d) as [|? [|? ?]]; try done.
    by injection Hrun as ->.
Qed.

Lemma elem_of_shipments_of k x order_id d :
  (k, x) ∈ shipments_of order_id d
  ↔ shipment d !! k = Some x ∧ ShipmentModel.order_id x = order_id.
Proof.
  unfold shipments_of.
  rewrite elem_of_map_to_list, map_lookup_filter_Some. simpl.
  by rewrite bool_decide_eq_true.
Qed.

Lemma shipments_of_none order_id d :
  (∀ k x, shipment d !! k = Some x → ShipmentModel.order_id x ≠ order_id) →
  shipments_of order_id d = [].
Proof.
  intros Hnone. destruct (shipments_of order_id d) as [|[k x] l] eqn:Hrows;
    [done|].
  assert ((k, x) ∈ shipments_of order_id d) as Hin by (rewrite Hrows; left).
  apply elem_of_shipments_of in Hin as [Hk Hx]. by destruct (Hnone k x).
Qed.

Lemma ship_order_eq now new_id order_id carrier tracking s :
  Shipments.ship_order now new_id order_id carrier tracking s =
  match shipments_of order_id (working s) with
  | [] =>
      match Shipments.create_shipment new_id
              (ShipmentCreate.mk order_id (Some carrier) (Some tracking)) s
      with
      | (Done _, s1) =>
          call (ShipmentService.update_shipment_status now new_id SHIPPED
                  true) s1
      | (Failed e, s1) => (Failed e, s1)
      end
  | [(k, _)] =>
      Shipments.update_shipment k (shipped_update now carrier tracking) s
  | _ => (Failed MultipleResultsFound, s)
  end.
Proof.
  unfold Shipments.ship_order. unfold mbind at 1, Service_bind at 1.
  rewrite get_shipment_by_order_eq. fold (shipments_of order_id (working s)).
  destruct (shipments_of order_id (working s)) as [|[k x] [|? ?]]; done.
Qed.

(** X14: one shipment per order.  [create_shipment] refuses an order the
    store does not hold and an order that has a shipment, changing nothing;
    otherwise it commits a PENDING shipment without timestamps, and the
    orders still have at most one shipment each. *)
Theorem create_shipment_one_per_order new_id data s :
  one_shipment_per_order (shipment (working s)) →
  let run := Shipments.create_shipment new_id data s in
  (orders (working s) !! ShipmentCreate.order_id data = None →
   run = (Failed (ShipmentValueError ShipmentOrderNotFound), s))
  ∧ (is_Some (orders (working s) !! ShipmentCreate.order_id data) →
     (∀ k x, shipment (working s) !! k = Some x →
             ShipmentModel.order_id x = ShipmentCreate.order_id data →
             run = (Failed (ShipmentValueError OrderAlreadyHasShipment), s))
     ∧ ((∀ k x, shipment (working s) !! k = Some x →
                ShipmentModel.order_id x ≠ ShipmentCreate.order_id data) →
        shipment (working s) !! new_id = None →
        ∃ s',
          run = (Done (Some (new_shipment_row data)), s')
          ∧ working s' = committed s'
          ∧ shipment (committed s')
            = <[new_id := new_shipment_row data]> (shipment (working s))
          ∧ one_shipment_per_order (shipment (committed s')))).
Proof.
  intros Huniq run. subst run. rewrite create_shipment_eq. split.
  { by intros ->. }
  intros [o ->].
  destruct (shipments_of_unique (ShipmentCreate.order_id data) (working s)
              Huniq) as [[-> Hnone]|(k & x & -> & Hk & Hx)].
  - split.
    + intros k x Hk Hx. by destruct (Hnone k x).
    + intros _ ->. eexists. split; [done|]. simpl.
      repeat split. by apply one_shipment_insert.
  - split; [done|]. intros Hnone. by destruct (Hnone k x).
Qed.

(** A parcel for the paid order, which has no shipment. *)
Lemma create_shipment_one_per_order_witness :
  ∃ s',
    Shipments.create_shipment 5 Scenario.parcel Sample.paid
    = (Done (Some (new_shipment_row Scenario.parcel)), s')
    ∧ working s' = committed s'
    ∧ shipment (committed s')
      = <[5%N := new_shipment_row Scenario.parcel]>
          (shipment (working Sample.paid))
    ∧ one_shipment_per_order (shipment (committed s')).
Proof.
  destruct (create_shipment_one_per_order 5 Scenario.parcel Sample.paid)
    as [_ Hfound].
  - intros i j x y Hi. simpl in Hi. by rewrite lookup_empty in Hi.
  - destruct Hfound as [_ Hnew]; [by eexists|].
    apply Hnew; [|reflexivity].
    intros k x Hk. simpl in Hk. by rewrite lookup_empty in Hk.
Defined.

Lemma ship_new_order_run now new_id order_id carrier tracking s :
  (∀ k x, shipment (working s) !! k = Some x →
          ShipmentModel.order_id x ≠ order_id) →
  shipment (working s) !! new_id = None →
  is_Some (orders (working s) !! order_id) →
  ∃ s',
    Shipments.ship_order now new_id order_id carrier tracking s
    = (Done (Some (shipped_row now order_id carrier tracking None)), s')
    ∧ working s' = committed s'
    ∧ shipment (committed s')
      = <[new_id := shipped_row now order_id carrier tracking None]>
          (shipment (working s)).
Proof.
  intros Hnone Hfresh [o Ho]. rewrite ship_order_eq.
  rewrite (shipments_of_none _ _ Hnone).
  rewrite create_shipment_eq. simpl.
  rewrite (shipments_of_none _ _ Hnone), Ho, Hfresh. simpl.
  rewrite call_update_shipment_status_eq. simpl.
  rewrite lookup_insert_eq. simpl.
  eexists. split; [done|]. simpl. split; [done|].
  apply map_eq. intros k. rewrite lookup_alter, !lookup_insert.
  case_decide; [subst k|done]. by rewrite decide_True.
Qed.

(** X15: shipping an order that has no shipment yet creates one and commits
    it as SHIPPED, with the carrier and tracking number given and the
    current time as [shipped_at]; an order the store does not hold is
    refused and nothing is stored. *)
Theorem ship_order_creates_shipment now new_id order_id carrier tracking s :
  (∀ k x, shipment (working s) !! k = Some x →
          ShipmentModel.order_id x ≠ order_id) →
  shipment (working s) !! new_id = None →
  let run := Shipments.ship_order now new_id order_id carrier tracking s in
  (orders (working s) !! order_id = None →
   run = (Failed (ShipmentValueError ShipmentOrderNotFound), s))
  ∧ (is_Some (orders (working s) !! order_id) →
     ∃ s',
       run = (Done (Some (shipped_row now order_id carrier tracking None)), s')
       ∧ shipment (committed s')
         = <[new_id := shipped_row now order_id carrier tracking None]>
             (shipment (working s))).
Proof.
  intros Hnone Hfresh run. subst run. split.
  - intros Ho. rewrite ship_order_eq, (shipments_of_none _ _ Hnone).
    rewrite create_shipment_eq. simpl. by rewrite Ho.
  - intros Horder.
    destruct (ship_new_order_run now new_id order_id carrier
                tracking s Hnone Hfresh Horder) as (s' & Hrun & _ & Hsh).
    by exists s'.
Qed.

(** Shipping the paid order, which has no shipment, at time 1000. *)
Lemma ship_order_creates_shipment_witness :
  ∃ s',
    Shipments.ship_order 1000 5 100 "Post" "RR1" Sample.paid
    = (Done (Some (shipped_row 1000 100 "Post" "RR1" None)), s')
    ∧ shipment (committed s')
      = <[5%N := shipped_row 1000 100 "Post" "RR1" None]>
          (shipment (working Sample.paid)).
Proof.
  destruct (ship_order_creates_shipment 1000 5 100 "Post" "RR1" Sample.paid)
    as [_ Hfound].
  - intros k x Hk. simpl in Hk. by rewrite lookup_empty in Hk.
  - reflexivity.
  - apply Hfound. by eexists.
Defined.

Lemma shipments_of_one order_id d k x :
  one_shipment_per_order (shipment d) →
  shipment d !! k = Some x →
  ShipmentModel.order_id x = order_id →
  shipments_of order_id d = [(k, x)].
Proof.
  intros Huniq Hk Hx.
  destruct (shipments_of_unique order_id d Huniq)
    as [[_ Hnone]|(j & y & Hrows & Hj & Hy)].
  - by destruct (Hnone k x).
  - assert (j = k) as -> by (eapply Huniq; eauto; congruence).
    congruence.
Qed.

Lemma ship_again_run now new_id carrier tracking s k x :
  one_shipment_per_order (shipment (working s)) →
  shipment (working s) !! k = Some x →
  ∃ s',
    Shipments.ship_order now new_id (ShipmentModel.order_id x) carrier
      tracking s
    = (Done (Some (shipped_row now (ShipmentModel.order_id x) carrier
                     tracking (ShipmentModel.delivered_at x))), s')
    ∧ shipment (committed s')
      = <[k := shipped_row now (ShipmentModel.order_id x) carrier tracking
                 (ShipmentModel.delivered_at x)]> (shipment (working s)).
Proof.
  intros Huniq Hk. rewrite ship_order_eq.
  rewrite (shipments_of_one _ _ k x Huniq Hk eq_refl).
  rewrite update_shipment_eq, Hk. simpl.
  eexists. split; [done|]. simpl.
  apply map_eq. intros j. rewrite lookup_alter, lookup_insert.
  case_decide; [subst j|done]. by rewrite Hk.
Qed.

(** X16: shipping an order that has a shipment rewrites that shipment
    whatever its state: it becomes SHIPPED even when it was DELIVERED or
    CANCELLED, the carrier and the tracking number are replaced and
    [shipped_at] is overwritten with the current time even when it was
    set; only [delivered_at] is kept.  No second shipment is stored. *)
Theorem ship_order_overwrites_shipment now new_id carrier tracking s k x :
  one_shipment_per_order (shipment (working s)) →
  shipment (working s) !! k = Some x →
  ∃ s',
    Shipments.ship_order now new_id (ShipmentModel.order_id x) carrier
      tracking s
    = (Done (Some (shipped_row now (ShipmentModel.order_id x) carrier
                     tracking (ShipmentModel.delivered_at x))), s')
    ∧ shipment (committed s')
      = <[k := shipped_row now (ShipmentModel.order_id x) carrier tracking
                 (ShipmentModel.delivered_at x)]> (shipment (working s))
    ∧ one_shipment_per_order (shipment (committed s')).
Proof.
  intros Huniq Hk.
  destruct (ship_again_run now new_id carrier tracking
              s k x Huniq Hk) as (s' & Hrun & Hsh).
  exists s'. split; [done|]. split; [done|]. rewrite Hsh.
  assert (<[k := shipped_row now (ShipmentModel.order_id x) carrier
                   tracking (ShipmentModel.delivered_at x)]>
            (shipment (working s))
          = alter (λ _, shipped_row now (ShipmentModel.order_id x) carrier
                          tracking (ShipmentModel.delivered_at x))
              k (shipment (working s))) as ->.
  { apply map_eq. intros j. rewrite lookup_alter, lookup_insert.
    case_decide; [subst j|done]. by rewrite Hk. }
  apply one_shipment_alter; [|done]. by intros y [= <-]%(eq_trans (eq_sym Hk)).
Qed.

(** Shipping the order whose shipment is packed. *)
Lemma ship_order_overwrites_shipment_witness :
  ∃ s',
    Shipments.ship_order 1000 6 100 "Post" "RR1" Scenario.packed_order
    = (Done (Some (shipped_row 1000 100 "Post" "RR1" None)), s')
    ∧ shipment (committed s')
      = <[5%N := shipped_row 1000 100 "Post" "RR1" None]>
          (shipment (working Scenario.packed_order))
    ∧ one_shipment_per_order (shipment (committed s')).
Proof.
  apply (ship_order_overwrites_shipment 1000 6 "Post" "RR1"
           Scenario.packed_order 5 Sample.packed_shipment).
  - apply one_shipment_singleton.
  - reflexivity.
Defined.

(** X17: shipping the same order twice keeps one shipment; the second call
    replaces the carrier, the tracking number and the time of shipping of
    the first. *)
Theorem ship_order_twice now1 now2 new1 new2 order_id carrier1 tracking1
    carrier2 tracking2 s :
  one_shipment_per_order (shipment (working s)) →
  (∀ k x, shipment (working s) !! k = Some x →
          ShipmentModel.order_id x ≠ order_id) →
  shipment (working s) !! new1 = None →
  is_Some (orders (working s) !! order_id) →
  ∃ sh1 s1 s2,
    Shipments.ship_order now1 new1 order_id carrier1 tracking1 s
    = (Done (Some sh1), s1)
    ∧ ShipmentModel.shipped_at sh1 = Some now1
    ∧ Shipments.ship_order now2 new2 order_id carrier2 tracking2 s1
      = (Done (Some (shipped_row now2 order_id carrier2 tracking2 None)), s2)
    ∧ shipment (committed s2)
      = <[new1 := shipped_row now2 order_id carrier2 tracking2 None]>
          (shipment (working s)).
Proof.
  intros Huniq Hnone Hfresh Horder.
  destruct (ship_new_order_run now1 new1 order_id carrier1
              tracking1 s Hnone Hfresh Horder) as (s1 & Hrun1 & Hw1 & Hsh1).
  assert (one_shipment_per_order (shipment (working s1))) as Huniq1.
  { rewrite Hw1, Hsh1. by apply one_shipment_insert. }
  assert (shipment (working s1) !! new1
          = Some (shipped_row now1 order_id carrier1 tracking1 None)) as Hk.
  { by rewrite Hw1, Hsh1, lookup_insert_eq. }
  destruct (ship_again_run now2 new2 carrier2 tracking2
              s1 new1 _ Huniq1 Hk) as (s2 & Hrun2 & Hsh2).
  eexists _, s1, s2. split; [exact Hrun1|]. split; [done|].
  split; [exact Hrun2|]. simpl in Hsh2.
  rewrite Hsh2, Hw1, Hsh1. apply insert_insert_eq.
Qed.

(** The paid order is shipped at time 1000 and again at time 2000 with
    another carrier. *)
Lemma ship_order_twice_witness :
  ∃ sh1 s1 s2,
    Shipments.ship_order 1000 5 100 "Post" "RR1" Sample.paid
    = (Done (Some sh1), s1)
    ∧ ShipmentModel.shipped_at sh1 = Some 1000%Z
    ∧ Shipments.ship_order 2000 6 100 "Courier" "CC2" s1
      = (Done (Some (shipped_row 2000 100 "Courier" "CC2" None)), s2)
    ∧ shipment (committed s2)
      = <[5%N := shipped_row 2000 100 "Courier" "CC2" None]>
          (shipment (working Sample.paid)).
Proof.
  apply (ship_order_twice 1000 2000 5 6 100 "Post" "RR1" "Courier" "CC2"
           Sample.paid).
  - apply one_shipment_empty.
  - intros k x Hk. simpl in Hk. by rewrite lookup_empty in Hk.
  - reflexivity.
  - by eexists.
Defined.

Lemma cancel_shipment_eq now shipment_id s :
  Shipments.cancel_shipment now shipment_id s =
  match shipment (working s) !! shipment_id with
  | None => (Done None, s)
  | Some x =>
      if bool_decide (ShipmentModel.status x = DELIVERED)
      then (Failed (ShipmentValueError CannotCancelDelivered), s)
      else
        let w := with_shipment
                   (alter (apply_update_data
                             (status_update_data now SHIPMENT_CANCELLED
                                false x))
                      shipment_id)
                   (working s) in
        (Done (Some (pushed now SHIPMENT_CANCELLED false x)),
         {| committed := w; working := w |})
  end.
Proof.
  unfold Shipments.cancel_shipment. unfold mbind, Service_bind.
  unfold call at 1, ShipmentService.get_shipment, db_select_shipment.
  destruct (shipment (working s) !! shipment_id) as [x|] eqn:Hx; [|done].
  case_bool_decide; [done|].
  by rewrite call_update_shipment_status_eq, Hx.
Qed.

Lemma delete_shipment_eq shipment_id s :
  Shipments.delete_shipment shipment_id s =
  match shipment (working s) !! shipment_id with
  | None => (Done false, s)
  | Some x =>
      if bool_decide (ShipmentModel.status x ∈ [SHIPPED; DELIVERED])
      then (Failed (ShipmentValueError CannotDeleteShipped), s)
      else
        let w := with_shipment (delete shipment_id) (working s) in
        (Done true, {| committed := w; working := w |})
  end.
Proof.
  unfold Shipments.delete_shipment, call, ShipmentService.get_shipment,
    db_select_shipment, mbind, Service_bind.
  destruct (shipment (working s) !! shipment_id) as [x|]; [|done].
  by case_bool_decide.
Qed.

(** X18: a delivered shipment is final for cancellation and deletion, and a
    shipped one for deletion: the calls raise and change nothing.  Any
    other shipment is cancelled with its carrier, tracking number and
    timestamps untouched. *)
Theorem shipment_guards now shipment_id s x :
  shipment (working s) !! shipment_id = Some x →
  (ShipmentModel.status x = DELIVERED →
   Shipments.cancel_shipment now shipment_id s
   = (Failed (ShipmentValueError CannotCancelDelivered), s))
  ∧ (ShipmentModel.status x = SHIPPED ∨ ShipmentModel.status x = DELIVERED →
     Shipments.delete_shipment shipment_id s
     = (Failed (ShipmentValueError CannotDeleteShipped), s))
  ∧ (ShipmentModel.status x ≠ DELIVERED →
     ∃ x' s',
       Shipments.cancel_shipment now shipment_id s = (Done (Some x'), s')
       ∧ shipment (committed s') !! shipment_id = Some x'
       ∧ ShipmentModel.status x' = SHIPMENT_CANCELLED
       ∧ ShipmentModel.order_id x' = ShipmentModel.order_id x
       ∧ ShipmentModel.carrier_name x' = ShipmentModel.carrier_name x
       ∧ ShipmentModel.tracking_number x' = ShipmentModel.tracking_number x
       ∧ ShipmentModel.shipped_at x' = ShipmentModel.shipped_at x
       ∧ ShipmentModel.delivered_at x' = ShipmentModel.delivered_at x).
Proof.
  intros Hx. split; [|split].
  - intros Hst. rewrite cancel_shipment_eq, Hx.
    by rewrite bool_decide_eq_true_2.
  - intros Hst. rewrite delete_shipment_eq, Hx.
    rewrite bool_decide_eq_true_2; [done|].
    rewrite !elem_of_cons. tauto.
  - intros Hst. rewrite cancel_shipment_eq, Hx.
    rewrite bool_decide_eq_false_2 by done.
    eexists _, _. split; [done|]. simpl.
    split; [by rewrite lookup_alter_eq, Hx|].
    by destruct x as [? ? ? ? [?|] [?|]].
Qed.

(** The packed shipment is cancelled. *)
Lemma shipment_guards_witness :
  ∃ x' s',
    Shipments.cancel_shipment 1000 5 Sample.packed = (Done (Some x'), s')
    ∧ shipment (committed s') !! 5%N = Some x'
    ∧ ShipmentModel.status x' = SHIPMENT_CANCELLED.
Proof.
  destruct (shipment_guards 1000 5 Sample.packed Sample.packed_shipment
              eq_refl) as (_ & _ & Hcancel).
  destruct Hcancel as (x' & s' & Hrun & Hx' & Hst & _); [discriminate|].
  by exists x', s'.
Defined.

(** X19: a shipment that has not left can be deleted, and the order can then
    get a new one: [delete_shipment] followed by [create_shipment] for the
    same order succeeds and the order has exactly the new shipment. *)
Theorem delete_then_create_shipment new_id shipment_id carrier tracking s x :
  one_shipment_per_order (shipment (working s)) →
  shipment (working s) !! shipment_id = Some x →
  ShipmentModel.status x ≠ SHIPPED ∧ ShipmentModel.status x ≠ DELIVERED →
  is_Some (orders (working s) !! ShipmentModel.order_id x) →
  shipment (working s) !! new_id = None →
  let data := ShipmentCreate.mk (ShipmentModel.order_id x) carrier tracking in
  ∃ s1 s2,
    Shipments.delete_shipment shipment_id s = (Done true, s1)
    ∧ shipment (committed s1) !! shipment_id = None
    ∧ Shipments.create_shipment new_id data s1
      = (Done (Some (new_shipment_row data)), s2)
    ∧ shipments_of (ShipmentModel.order_id x) (committed s2)
      = [(new_id, new_shipment_row data)].
Proof.
  intros Huniq Hx [HnS HnD] [o Ho] Hfresh data.
  eexists _, _. split.
  { rewrite delete_shipment_eq, Hx. rewrite bool_decide_eq_false_2; [done|].
    rewrite !elem_of_cons, elem_of_nil. tauto. }
  simpl. split; [apply lookup_delete_eq|].
  assert (∀ k y, delete shipment_id (shipment (working s)) !! k = Some y →
                 ShipmentModel.order_id y ≠ ShipmentModel.order_id x)
    as Hnone.
  { intros k y. rewrite lookup_delete. case_decide; [done|].
    intros Hk Heq. destruct H. eapply Huniq; eauto. }
  split.
  { rewrite create_shipment_eq. simpl. rewrite Ho.
    rewrite (shipments_of_none (ShipmentModel.order_id x)
               (with_shipment (delete shipment_id) (working s)) Hnone).
    rewrite lookup_delete_ne by (intros ->; congruence).
    by rewrite Hfresh. }
  simpl. apply shipments_of_one; simpl.
  - apply one_shipment_insert; [done|].
    eapply one_shipment_subseteq; [apply delete_subseteq|done].
  - apply lookup_insert_eq.
  - done.
Qed.

(** The packed shipment of order 100 is deleted and a parcel created. *)
Lemma delete_then_create_shipment_witness :
  ∃ s1 s2,
    Shipments.delete_shipment 5 Scenario.packed_order = (Done true, s1)
    ∧ shipment (committed s1) !! 5%N = None
    ∧ Shipments.create_shipment 6 Scenario.parcel s1
      = (Done (Some (new_shipment_row Scenario.parcel)), s2)
    ∧ shipments_of 100 (committed s2)
      = [(6%N, new_shipment_row Scenario.parcel)].
Proof.
  apply (delete_then_create_shipment 6 5 (Some "Post") (Some "RR1")
           Scenario.packed_order Sample.packed_shipment).
  - apply one_shipment_singleton.
  - reflexivity.
  - split; discriminate.
  - by eexists.
  - reflexivity.
Defined.

Lemma select_scalar_cases (selects : ShipmentModel.t → bool) s :
  let run := (rows ← db_select_shipments selects; scalar_one_or_none rows) s in
  ((∀ k x, shipment (working s) !! k = Some x → selects x = false) →
   run = (Done None, s))
  ∧ (∀ k x, shipment (working s) !! k = Some x → selects x = true →
       (∀ j y, shipment (working s) !! j = Some y → selects y = true →
               j = k) →
       run = (Done (Some (k, x)), s))
  ∧ (∀ i j x y, shipment (working s) !! i = Some x →
       shipment (working s) !! j = Some y → i ≠ j →
       selects x = true → selects y = true →
       run = (Failed MultipleResultsFound, s)).
Proof.
  intros run. subst run.
  unfold db_select_shipments, mbind, Service_bind.
  split; [|split].
  - intros Hnone. by rewrite (select_none selects).
  - intros k x Hk Hx Honly. by rewrite (select_one selects _ k x).
  - intros i j x y Hi Hj Hne Hx Hy.
    by destruct (select_several selects _ i j x y Hi Hj Hne Hx Hy)
      as (c & d & rest & ->).
Qed.

(** X20: tracking numbers are not unique in the store, and the lookup by
    tracking number does not cope with that: it gives the shipment when
    exactly one carries the number, [None] when none does, and raises
    [MultipleResultsFound] as soon as two do. *)
Theorem get_shipment_by_tracking_cases tracking s :
  let run := Shipments.get_shipment_by_tracking tracking s in
  ((∀ k x, shipment (working s) !! k = Some x →
           ShipmentModel.tracking_number x ≠ Some tracking) →
   run = (Done None, s))
  ∧ (∀ k x, shipment (working s) !! k = Some x →
       ShipmentModel.tracking_number x = Some tracking →
       (∀ j y, shipment (working s) !! j = Some y →
               ShipmentModel.tracking_number y = Some tracking → j = k) →
       run = (Done (Some (k, x)), s))
  ∧ (∀ i j x y, shipment (working s) !! i = Some x →
       shipment (working s) !! j = Some y → i ≠ j →
       ShipmentModel.tracking_number x = Some tracking →
       ShipmentModel.tracking_number y = Some tracking →
       run = (Failed MultipleResultsFound, s)).
Proof.
  intros run. subst run.
  set (selects := λ sh : ShipmentModel.t,
         bool_decide (ShipmentModel.tracking_number sh = Some tracking)).
  destruct (select_scalar_cases selects s) as (Hzero & Hone & Hmany).
  split; [|split].
  - intros Hnone. apply Hzero.
    intros k x Hk. apply bool_decide_eq_false_2. eauto.
  - intros k x Hk Hx Honly. apply (Hone k x Hk).
    + by apply bool_decide_eq_true_2.
    + intros j y Hj Hy. apply bool_decide_eq_true_1 in Hy. eauto.
  - intros i j x y Hi Hj Hne Hx Hy.
    apply (Hmany i j x y Hi Hj Hne); by apply bool_decide_eq_true_2.
Qed.

(** Two shipments under the tracking number RR1. *)
Lemma get_shipment_by_tracking_cases_witness :
  Shipments.get_shipment_by_tracking "RR1" Scenario.two_parcels
  = (Failed MultipleResultsFound, Scenario.two_parcels)
  ∧ Shipments.get_shipment_by_tracking "ZZ9" Scenario.two_parcels
    = (Done None, Scenario.two_parcels).
Proof.
  split.
  - destruct (get_shipment_by_tracking_cases "RR1" Scenario.two_parcels)
      as (_ & _ & Hmany).
    apply (Hmany 5%N 6%N (Scenario.tracked 100) (Scenario.tracked 101));
      by vm_compute.
  - destruct (get_shipment_by_tracking_cases "ZZ9" Scenario.two_parcels)
      as (Hnone & _).
    apply Hnone. intros k x Hk. simpl in Hk.
    destruct (decide (k = 5%N)) as [->|].
    + rewrite lookup_insert_eq in Hk. by injection Hk as <-.
    + rewrite lookup_insert_ne in Hk by done.
      by apply lookup_singleton_Some in Hk as [_ <-].
Defined.

(** X21: shipping and then delivering.  After [ship_order] on an order
    without shipment and [deliver_shipment] on the shipment it created,
    the shipment is DELIVERED, left at the time of the first call and
    arrived at the time of the second. *)
Theorem ship_then_deliver now1 now2 new_id order_id carrier tracking s :
  (∀ k x, shipment (working s) !! k = Some x →
          ShipmentModel.order_id x ≠ order_id) →
  shipment (working s) !! new_id = None →
  is_Some (orders (working s) !! order_id) →
  ∃ sh1 s1 sh2 s2,
    Shipments.ship_order now1 new_id order_id carrier tracking s
    = (Done (Some sh1), s1)
    ∧ Shipments.deliver_shipment now2 new_id s1 = (Done (Some sh2), s2)
    ∧ shipment (committed s2) !! new_id = Some sh2
    ∧ ShipmentModel.status sh2 = DELIVERED
    ∧ ShipmentModel.shipped_at sh2 = Some now1
    ∧ ShipmentModel.delivered_at sh2 = Some now2
    ∧ ShipmentModel.carrier_name sh2 = Some carrier
    ∧ ShipmentModel.tracking_number sh2 = Some tracking.
Proof.
  intros Hnone Hfresh Horder.
  destruct (ship_new_order_run now1 new_id order_id carrier tracking s
              Hnone Hfresh Horder) as (s1 & Hrun1 & Hw1 & Hsh1).
  assert (shipment (working s1) !! new_id
          = Some (shipped_row now1 order_id carrier tracking None)) as Hk.
  { by rewrite Hw1, Hsh1, lookup_insert_eq. }
  eexists _, s1, _, _. split; [exact Hrun1|]. split.
  { unfold Shipments.deliver_shipment.
    by rewrite call_update_shipment_status_eq, Hk. }
  simpl. by rewrite lookup_alter_eq, Hk.
Qed.

(** The paid order leaves at time 1000 and arrives at time 2000. *)
Lemma ship_then_deliver_witness :
  ∃ sh1 s1 sh2 s2,
    Shipments.ship_order 1000 5 100 "Post" "RR1" Sample.paid
    = (Done (Some sh1), s1)
    ∧ Shipments.deliver_shipment 2000 5 s1 = (Done (Some sh2), s2)
    ∧ shipment (committed s2) !! 5%N = Some sh2
    ∧ ShipmentModel.status sh2 = DELIVERED
    ∧ ShipmentModel.shipped_at sh2 = Some 1000%Z
    ∧ ShipmentModel.delivered_at sh2 = Some 2000%Z
    ∧ ShipmentModel.carrier_name sh2 = Some "Post"
    ∧ ShipmentModel.tracking_number sh2 = Some "RR1".
Proof.
  apply (ship_then_deliver 1000 2000 5 100 "Post" "RR1" Sample.paid).
  - intros k x Hk. simpl in Hk. by rewrite lookup_empty in Hk.
  - reflexivity.
  - by eexists.
Defined.

Lemma run_shipment_op_unique op s :
  shipments_unique s → shipments_unique (run_shipment_op op s).
Proof.
  intros [Hc Hw]. pose proof (conj Hc Hw : shipments_unique s) as Hs.
  assert (∀ w, one_shipment_per_order (shipment w) →
               shipments_unique {| committed := w; working := w |}) as Hboth
    by (by split).
  destruct op as [new_id data | k u | now k st flag
                 | now new_id oid carrier tracking | now k | now k | k | oid];
    simpl.
  - (* create_shipment *)
    rewrite create_shipment_eq.
    destruct (orders (working s) !! _); [|done].
    destruct (shipments_of_unique (ShipmentCreate.order_id data) (working s)
                Hw) as [[-> Hnone]|(j & x & -> & _)]; [|done].
    destruct (shipment (working s) !! new_id); [done|].
    simpl. apply Hboth. simpl. by apply one_shipment_insert.
  - (* update_shipment *)
    rewrite update_shipment_eq.
    destruct (shipment (working s) !! k) as [x|]; [|done].
    destruct (ShipmentUpdate.is_empty u); [done|].
    destruct (ShipmentUpdate.status u) as [|[st|]]; try done.
    all: simpl; apply Hboth; simpl; by apply one_shipment_alter.
  - (* update_shipment_status *)
    rewrite update_shipment_status_eq.
    destruct (shipment (working s) !! k) as [x|]; [|done].
    simpl. apply Hboth. simpl. by apply one_shipment_alter.
  - (* ship_order *)
    rewrite ship_order_eq.
    destruct (shipments_of_unique oid (working s) Hw)
      as [[-> Hnone]|(j & x & -> & Hj & Hx)].
    + rewrite create_shipment_eq. simpl.
      rewrite (shipments_of_none _ _ Hnone).
      destruct (orders (working s) !! oid); [|done].
      destruct (shipment (working s) !! new_id) eqn:Hnew; [done|].
      rewrite call_update_shipment_status_eq. simpl.
      rewrite lookup_insert_eq. simpl. apply Hboth. simpl.
      apply one_shipment_alter; [done|]. by apply one_shipment_insert.
    + rewrite update_shipment_eq, Hj. simpl. apply Hboth. simpl.
      by apply one_shipment_alter.
  - (* deliver_shipment *)
    unfold Shipments.deliver_shipment.
    rewrite call_update_shipment_status_eq.
    destruct (shipment (working s) !! k) as [x|]; [|done].
    simpl. apply Hboth. simpl. by apply one_shipment_alter.
  - (* cancel_shipment *)
    rewrite cancel_shipment_eq.
    destruct (shipment (working s) !! k) as [x|]; [|done].
    case_bool_decide; [done|].
    simpl. apply Hboth. simpl. by apply one_shipment_alter.
  - (* delete_shipment *)
    rewrite delete_shipment_eq.
    destruct (shipment (working s) !! k) as [x|]; [|done].
    case_bool_decide; [done|].
    simpl. apply Hboth. simpl.
    eapply one_shipment_subseteq; [apply delete_subseteq|done].
  - (* delete_order: the shipment of the order goes with it *)
    destruct (orders (working s) !! oid) as [o|] eqn:Ho;
      [|by rewrite delete_order_missing].
    destruct (decide (OrderModel.status o = DRAFT)).
    2: { by rewrite (delete_order_Raise _ _ o). }
    destruct (restore_loop (OrderModel.order_items o) s)
      as (s1 & Hrun & _ & _ & Hsh & _).
    rewrite (delete_order_run _ _ o s1) by done. simpl.
    apply Hboth. simpl. rewrite Hsh.
    eapply one_shipment_subseteq; [apply map_filter_subseteq|done].
Qed.

(** X22: no order ever has two shipments.  Starting from a store that
    respects the one-shipment-per-order constraint, every sequence of
    shipment creations, updates, status pushes, [ship_order] calls,
    deliveries, cancellations, deletions and order deletions commits a
    store that respects it. *)
Theorem shipments_stay_unique ops s i j x y :
  shipments_unique s →
  let final := foldl (λ s op, run_shipment_op op s) s ops in
  shipment (committed final) !! i = Some x →
  shipment (committed final) !! j = Some y →
  ShipmentModel.order_id x = ShipmentModel.order_id y →
  i = j.
Proof.
  intros Hs final.
  assert (shipments_unique final) as [H _]; [|apply H].
  subst final. revert s Hs.
  induction ops as [|op ops IH]; intros s Hs; [done|].
  simpl. apply IH. by apply run_shipment_op_unique.
Qed.

(** The paid order is shipped twice, a second parcel is asked for, and the
    shipment is delivered: shipment 5 is the only one of its order. *)
Lemma shipments_stay_unique_witness :
  ∃ x,
    let final :=
      foldl (λ s op, run_shipment_op op s) Sample.paid
        [ShShipOrder 1000 5 100 "Post" "RR1";
         ShShipOrder 2000 6 100 "Courier" "CC2";
         ShCreate 7 Scenario.parcel;
         ShDeliver 3000 5] in
    shipment (committed final) !! 5%N = Some x
    ∧ ShipmentModel.status x = DELIVERED
    ∧ ∀ j y, shipment (committed final) !! j = Some y →
             ShipmentModel.order_id y = ShipmentModel.order_id x → j = 5%N.
Proof.
  eexists. split; [by vm_compute|]. split; [reflexivity|].
  intros j y Hj Hy.
  eapply (shipments_stay_unique
            [ShShipOrder 1000 5 100 "Post" "RR1";
             ShShipOrder 2000 6 100 "Courier" "CC2";
             ShCreate 7 Scenario.parcel;
             ShDeliver 3000 5] Sample.paid j 5%N y).
  - split; apply one_shipment_empty.
  - exact Hj.
  - by vm_compute.
  - exact Hy.
Defined.

(** ** The category emoji of a product *)

Lemma is_prefix_app_str_in a b text :
  is_prefix (a +:+ b) text = true → str_in b text = true.
Proof.
  revert text. induction a as [|c a IH]; intros text.
  - change ("" +:+ b) with b. intros H. destruct text; simpl; by rewrite H.
  - change (String c a +:+ b) with (String c (a +:+ b)).
    destruct text as [|c' text]; [done|].
    intros [_ H]%andb_prop. apply IH in H.
    change (str_in b (String c' text))
      with (is_prefix b (String c' text) || str_in b text).
    rewrite H. by rewrite orb_true_r.
Qed.

(** A text that contains [a +:+ b] contains [b]. *)
Lemma str_in_app a b text :
  str_in (a +:+ b) text = true → str_in b text = true.
Proof.
  induction text as [|c text IH].
  - intros [H|H]%orb_prop; [|done]. by apply is_prefix_app_str_in in H.
  - intros [H|H]%orb_prop.
    + by apply is_prefix_app_str_in in H.
    + change (str_in b (String c text))
        with (is_prefix b (String c text) || str_in b text).
      rewrite IH; [|done]. by rewrite orb_true_r.
Qed.

(** X23: [get_category_emoji] tries the keys of [placeholder_map] in the
    order they are written and stops at the first one contained in the
    lower-cased category.  The key 'vegetables' comes first, and every text
    that contains 'root vegetables' contains it: a category named so,
    given as a string or as a record, gets the emoji written for
    'vegetables' and never the different one written for
    'root vegetables'. *)
Theorem get_category_emoji_root_vegetables lower name category :
  str_in "root vegetables" (lower name) = true →
  category = Present (CategoryName name)
  ∨ category = Present (CategoryRecord (Present name)) →
  ProductDisplay.get_category_emoji lower category
    = written_for "vegetables"
  ∧ is_Some (written_for "root vegetables")
  ∧ written_for "root vegetables" ≠ written_for "vegetables".
Proof.
  intros Hroot Hcategory.
  assert (str_in "vegetables" (lower name) = true) as Hveg
    by exact (str_in_app "root " "vegetables" _ Hroot).
  split; [|split; [by eexists|by vm_compute]].
  destruct Hcategory as [-> | ->];
    unfold ProductDisplay.get_category_emoji, ProductDisplay.placeholder_map,
      ProductDisplay.first_match; by rewrite Hveg.
Qed.

(** The category 'Root Vegetables'. *)
Lemma get_category_emoji_root_vegetables_witness :
  ProductDisplay.get_category_emoji Scenario.lower
    (Present (CategoryName "Root Vegetables"))
  = written_for "vegetables"
  ∧ written_for "root vegetables" ≠ written_for "vegetables".
Proof.
  destruct (get_category_emoji_root_vegetables Scenario.lower
              "Root Vegetables" (Present (CategoryName "Root Vegetables")))
    as (Hemoji & _ & Hother).
  - by vm_compute.
  - by left.
  - by split.
Defined.
